(** * aeneas.globalfunctions: configuration codec and time formatters

    A shallow embedding of [aeneas/globalfunctions.py] (Python 2) and the
    properties of its configuration codec ([config_txt_to_string],
    [config_string_to_dict], [config_xml_to_dict], [config_dict_to_string],
    [pairs_to_dict]) and of its time formatters ([time_to_ssmmm],
    [time_to_hhmmssmmm], [time_to_srt]).

    Python values are modelled as follows:
    - [str] is [string]; [None]-or-[str] is [option string];
    - [dict] with [str] keys and values is [gmap string string]: equality of
      Python dicts ignores the iteration order, as equality of [gmap] does,
      and [for key in dictionary] visits each key once, as [map_to_list];
    - the [Result] object that collects warnings and errors is a record that
      is threaded through the calls which mutate it;
    - a [float] is a binary64 [PrimFloat.float]. *)

From Stdlib Require Import ZArith Ascii String List Floats DecimalString.
From stdpp Require Import gmap strings list fin_maps.

Set Warnings "-register-all,-inexact-float".

Local Open Scope string_scope.

(** ** Python built-ins used by the module *)

Module Py.

(** [c in s] for a one-character [c]. *)
Fixpoint contains (c : ascii) (s : string) : bool :=
  match s with
  | EmptyString => false
  | String a s' => if Ascii.eqb a c then true else contains c s'
  end.

(** [s.split(sep)] for a one-character separator: every occurrence of [sep]
    ends a piece, pieces may be empty, and the empty string gives [['']]. *)
Fixpoint split (sep : ascii) (s : string) : list string :=
  match s with
  | EmptyString => [EmptyString]
  | String a s' =>
      if Ascii.eqb a sep then EmptyString :: split sep s'
      else match split sep s' with
           | [] => [String a EmptyString]
           | piece :: pieces => String a piece :: pieces
           end
  end.

(** [sep.join(l)]. *)
Fixpoint join (sep : ascii) (l : list string) : string :=
  match l with
  | [] => EmptyString
  | [x] => x
  | x :: rest => x ++ String sep (join sep rest)
  end.

(** The characters [str.strip()] removes from a byte string:
    space, tab, line feed, carriage return, vertical tab, form feed. *)
Definition isspace (c : ascii) : bool :=
  let n := nat_of_ascii c in
  (n =? 32)%nat || ((9 <=? n)%nat && (n <=? 13)%nat).

Fixpoint lstrip (s : string) : string :=
  match s with
  | EmptyString => EmptyString
  | String a s' => if isspace a then lstrip s' else s
  end.

Fixpoint rstrip (s : string) : string :=
  match s with
  | EmptyString => EmptyString
  | String a s' =>
      match rstrip s' with
      | EmptyString => if isspace a then EmptyString else String a EmptyString
      | r => String a r
      end
  end.

(** [s.strip()]. *)
Definition strip (s : string) : string := rstrip (lstrip s).

(** [s.splitlines()] on a byte string: a line ends at [\n], [\r] or [\r\n],
    the line ends are dropped, and a final line end opens no empty line. *)
Fixpoint splitlines (s : string) : list string :=
  match s with
  | EmptyString => []
  | String a s' =>
      if Ascii.eqb a "010" then EmptyString :: splitlines s'
      else if Ascii.eqb a "013" then
        match s' with
        | String b s'' =>
            if Ascii.eqb b "010" then EmptyString :: splitlines s''
            else EmptyString :: splitlines s'
        | EmptyString => [EmptyString]
        end
      else match splitlines s' with
           | [] => [String a EmptyString]
           | line :: lines => String a line :: lines
           end
  end.

End Py.

(** ** The report sink *)

(** Modelled from the spec: the [Result] class that [config_xml_to_dict] and
    [pairs_to_dict] receive is not in this module. The spec gives its
    contract: a pass/fail flag, [add_error] and [add_warning], each of which
    appends one message. *)
Record Result := mkResult {
  passed : bool;
  warnings : list string;
  errors : list string
}.

Definition add_warning (r : Result) (message : string) : Result :=
  {| passed := passed r; warnings := warnings r ++ [message]; errors := errors r |}.

Definition add_error (r : Result) (message : string) : Result :=
  {| passed := passed r; warnings := warnings r; errors := errors r ++ [message] |}.

Definition set_passed (r : Result) (b : bool) : Result :=
  {| passed := b; warnings := warnings r; errors := errors r |}.

(** ** XML documents *)

(** An [lxml] element as the module reads it: [elem.tag], [elem.text]
    ([None] when the element has no text) and the children that iterating the
    element yields, in document order. *)
Inductive Element := mkElement {
  tag : string;
  text : option string;
  children : list Element
}.

(** What [config_xml_to_dict] returns: a dict or a list of dicts. *)
Inductive XmlOutput :=
| OutDict (dictionary : gmap string string)
| OutList (output_list : list (gmap string string)).

(** A job with a language, a blank description and two tasks, between which
    sits an element that is not a task. *)
Definition sample_tasks : Element :=
  mkElement "tasks" None
    [ mkElement "task" None [mkElement "language" (Some "en") []];
      mkElement "note" (Some "skipped") [];
      mkElement "task" None [mkElement "language" (Some " it ") [];
                             mkElement "empty" None []] ].

Definition sample_job : Element :=
  mkElement "job" None
    [ mkElement "language" (Some "en") [];
      mkElement "description" (Some "  ") [];
      sample_tasks ].

(** ** The time formatters *)

(** A Python 2 number: the formatters receive an [int] or a [float]. *)
Inductive number :=
| PyInt (n : Z)
| PyFloat (x : float).

Module Num.

(** [float(n)] for an [int]: the nearest binary64 value. *)
Definition float_of_int (n : Z) : float :=
  SF2Prim (binary_normalize prec emax n 0 false).

Definition to_float (a : number) : float :=
  match a with
  | PyInt n => float_of_int n
  | PyFloat x => x
  end.

(** The signed mantissa of a finite float [(-1)^s * m * 2^e]. *)
Definition signed (s : bool) (m : positive) : Z := if s then Z.neg m else Z.pos m.

(** [math.floor(x)], which returns a [float] in Python 2; zeros, infinities
    and NaN are returned as they are. *)
Definition floor (x : float) : float :=
  match Prim2SF x with
  | S754_finite s m e =>
      float_of_int (if (0 <=? e)%Z then signed s m * 2 ^ e else signed s m / 2 ^ (- e))%Z
  | _ => x
  end.

(** [int(x)] as [%d] applies it to a [float]: truncation towards zero, and
    [None] where Python raises (infinities and NaN). *)
Definition int_of_float (x : float) : option Z :=
  match Prim2SF x with
  | S754_finite s m e =>
      Some (if (0 <=? e)%Z then signed s m * 2 ^ e else Z.quot (signed s m) (2 ^ (- e)))%Z
  | S754_zero _ => Some 0%Z
  | S754_infinity _ | S754_nan => None
  end.

(** The decimal digits of a natural number. *)
Definition digits (n : Z) : string := NilZero.string_of_uint (N.to_uint (Z.to_N n)).

Fixpoint zeros (k : nat) : string :=
  match k with
  | O => EmptyString
  | S k' => String "0" (zeros k')
  end.

Definition zfill (width : nat) (s : string) : string :=
  zeros (width - String.length s) ++ s.

(** ["%0<width>d" % n]: the sign counts in the width. *)
Definition format_d (width : nat) (n : Z) : string :=
  if (n <? 0)%Z then String "-" (zfill (width - 1) (digits (- n)))
  else zfill width (digits n).

(** [num / den] rounded to the nearest integer, ties to even. *)
Definition round_half_even (num den : Z) : Z :=
  let q := (num / den)%Z in
  let r := (num mod den)%Z in
  match (2 * r ?= den)%Z with
  | Lt => q
  | Gt => (q + 1)%Z
  | Eq => if Z.even q then q else (q + 1)%Z
  end.

(** ["%.3f" % x]: the exact binary value of [x], correctly rounded to three
    decimals. *)
Definition format_f3 (x : float) : string :=
  match Prim2SF x with
  | S754_nan => "nan"
  | S754_infinity s => if s then "-inf" else "inf"
  | S754_zero s => if s then "-0.000" else "0.000"
  | S754_finite s m e =>
      let n := if (0 <=? e)%Z then (Z.pos m * 2 ^ e * 1000)%Z
               else round_half_even (Z.pos m * 1000) (2 ^ (- e)) in
      (if s then "-" else EmptyString) ++ digits (n / 1000) ++ "." ++ zfill 3 (digits (n mod 1000))
  end.

End Num.

(** [time_to_ssmmm(time_value)]. *)
Definition time_to_ssmmm (time_value : number) : string :=
  Num.format_f3 (Num.to_float time_value).

(** [time_to_hhmmssmmm(time_value, decimal_separator=".")]; [None] where the
    final [%d] raises. [tmp / 3600] is the floor division of Python 2 when
    [tmp] is an [int]; from [tmp -= hours * 3600] on, [tmp] is a [float]. *)
Definition time_to_hhmmssmmm (time_value : number) (decimal_separator : string)
  : option string :=
  let tmp := time_value in
  let hours :=
    match tmp with
    | PyInt n => Num.floor (Num.float_of_int (n / 3600))
    | PyFloat x => Num.floor (x / Num.float_of_int 3600)
    end in
  let tmp := (Num.to_float tmp - hours * Num.float_of_int 3600)%float in
  let minutes := Num.floor (tmp / Num.float_of_int 60) in
  let tmp := (tmp - minutes * Num.float_of_int 60)%float in
  let seconds := Num.floor tmp in
  let tmp := (tmp - seconds)%float in
  let milliseconds := Num.floor (tmp * Num.float_of_int 1000) in
  match Num.int_of_float hours, Num.int_of_float minutes,
        Num.int_of_float seconds, Num.int_of_float milliseconds with
  | Some h, Some m, Some s, Some ms =>
      Some (Num.format_d 2 h ++ ":" ++ Num.format_d 2 m ++ ":" ++ Num.format_d 2 s
            ++ decimal_separator ++ Num.format_d 3 ms)
  | _, _, _, _ => None
  end.

(** [time_to_srt(time_value)]. *)
Definition time_to_srt (time_value : number) : option string :=
  time_to_hhmmssmmm time_value ",".

(** The four integers that [time_to_hhmmssmmm] prints: the hours, minutes,
    seconds and milliseconds that it computes, as [%d] converts them. *)
Definition clock_fields (time_value : number) : option (Z * Z * Z * Z) :=
  let tmp := time_value in
  let hours :=
    match tmp with
    | PyInt n => Num.floor (Num.float_of_int (n / 3600))
    | PyFloat x => Num.floor (x / Num.float_of_int 3600)
    end in
  let tmp := (Num.to_float tmp - hours * Num.float_of_int 3600)%float in
  let minutes := Num.floor (tmp / Num.float_of_int 60) in
  let tmp := (tmp - minutes * Num.float_of_int 60)%float in
  let seconds := Num.floor tmp in
  let tmp := (tmp - seconds)%float in
  let milliseconds := Num.floor (tmp * Num.float_of_int 1000) in
  match Num.int_of_float hours, Num.int_of_float minutes,
        Num.int_of_float seconds, Num.int_of_float milliseconds with
  | Some h, Some m, Some s, Some ms => Some (h, m, s, ms)
  | _, _, _, _ => None
  end.

(** The float that the decimal literal with the digits of [k] and three
    decimals denotes: [k / 1000] rounded to nearest. *)
Definition milliseconds_value (k : Z) : number :=
  PyFloat (Num.float_of_int k / Num.float_of_int 1000).

(** The checks that the proofs run over a range of inputs. *)
Definition whole_second_ok (i : nat) : bool :=
  let n := Z.of_nat i in
  let expected := Some (n / 3600, n mod 3600 / 60, n mod 60, 0)%Z in
  match clock_fields (PyInt n), clock_fields (PyFloat (Num.float_of_int n)) with
  | Some a, Some b =>
      match a, b with
      | (h, m, s, ms), (h', m', s', ms') =>
          (h =? n / 3600)%Z && (m =? n mod 3600 / 60)%Z && (s =? n mod 60)%Z && (ms =? 0)%Z
          && (h' =? n / 3600)%Z && (m' =? n mod 3600 / 60)%Z && (s' =? n mod 60)%Z
          && (ms' =? 0)%Z
      end
  | _, _ => false
  end.

Definition three_decimals_ok (i : nat) : bool :=
  let k := Z.of_nat i in
  String.eqb (time_to_ssmmm (milliseconds_value k))
             (Num.digits (k / 1000) ++ "." ++ Num.zfill 3 (Num.digits (k mod 1000))).

Definition truncated_ok (i : nat) : bool :=
  let k := Z.of_nat i in
  match clock_fields (milliseconds_value k) with
  | Some (h, m, s, ms) =>
      (h =? 0)%Z && (m =? 0)%Z && (s =? k / 1000)%Z
      && ((ms =? k mod 1000)%Z || (ms =? k mod 1000 - 1)%Z)
      && (if (k <? 1000)%Z then (ms =? k)%Z else true)
  | None => false
  end.

(** ** Safe parsing of numbers *)

(** What a call does: it returns a value or lets an exception escape. *)
Inductive outcome (A : Type) :=
| Returns (value : A)
| Raises.

Arguments Returns {A} value.
Arguments Raises {A}.

(** [safe_float(string, default=None)]. [float_of_string] is [float(s)] on a
    [str]: the parsed value, or [None] when [float] raises [ValueError];
    [float(None)] raises [TypeError]. Both are caught and leave [default]. *)
Definition safe_float (float_of_string : string -> option float)
           (text : option string) (default : option number) : option number :=
  let value := default in
  match text with
  | None => value
  | Some s =>
      match float_of_string s with
      | Some x => Some (PyFloat x)
      | None => value
      end
  end.

(** [int(value)] on a number: an [int] is itself, a [float] is truncated
    towards zero, and [int] raises on an infinity or a NaN. *)
Definition int_of_number (value : number) : outcome Z :=
  match value with
  | PyInt n => Returns n
  | PyFloat x =>
      match Num.int_of_float x with
      | Some n => Returns n
      | None => Raises
      end
  end.

(** [safe_int(string, default=None)]: [int(value)] is outside any [try]. *)
Definition safe_int (float_of_string : string -> option float)
           (text : option string) (default : option number) : outcome (option Z) :=
  match safe_float float_of_string text default with
  | Some value =>
      match int_of_number value with
      | Returns n => Returns (Some n)
      | Raises => Raises
      end
  | None => Returns None
  end.

(** ** File names *)

(** [os.path] on POSIX ([posixpath]), as [file_name_without_extension] uses
    it. *)
Module Path.

(** [s.rfind(c)] for a one-character [c]: the index of the last occurrence,
    or [-1]. *)
Fixpoint rfind (c : ascii) (s : string) : Z :=
  match s with
  | EmptyString => (-1)%Z
  | String a s' =>
      let r := rfind c s' in
      if (0 <=? r)%Z then (r + 1)%Z else if Ascii.eqb a c then 0%Z else (-1)%Z
  end.

(** [s[i:j]] for [0 <= i <= j]. *)
Definition slice (i j : Z) (s : string) : string :=
  substring (Z.to_nat i) (Z.to_nat j - Z.to_nat i) s.

(** [s[i:]] and [s[:j]] for indices that are not negative. *)
Definition slice_from (i : Z) (s : string) : string :=
  slice i (Z.of_nat (String.length s)) s.

Definition slice_to (j : Z) (s : string) : string := slice 0 j s.

(** [basename(p)]: [i = p.rfind('/') + 1; return p[i:]]. *)
Definition basename (p : string) : string :=
  let i := (rfind "/" p + 1)%Z in
  slice_from i p.

(** Whether some character of [s] is not a dot. *)
Fixpoint has_non_dot (s : string) : bool :=
  match s with
  | EmptyString => false
  | String a s' => if Ascii.eqb a "." then has_non_dot s' else true
  end.

(** [splitext(p)]: the extension starts at the last dot, when that dot comes
    after the last slash and after a character of the file name that is not
    a dot (the loop that skips the leading dots looks through
    [p[sepIndex+1:dotIndex]]). *)
Definition splitext (p : string) : string * string :=
  let sepIndex := rfind "/" p in
  let dotIndex := rfind "." p in
  if (sepIndex <? dotIndex)%Z && has_non_dot (slice (sepIndex + 1) dotIndex p)
  then (slice_to dotIndex p, slice_from dotIndex p)
  else (p, EmptyString).

(** [s.startswith(prefix)]. *)
Fixpoint startswith (prefix s : string) : bool :=
  match prefix, s with
  | EmptyString, _ => true
  | String a prefix', String b s' => Ascii.eqb a b && startswith prefix' s'
  | String _ _, EmptyString => false
  end.

(** [s.endswith('/')]. *)
Fixpoint endswith_slash (s : string) : bool :=
  match s with
  | EmptyString => false
  | String a EmptyString => Ascii.eqb a "/"
  | String _ s' => endswith_slash s'
  end.

(** [join(a, b)]: an absolute [b] replaces [a]; otherwise [b] is appended,
    after a slash unless [a] is empty or ends with one. *)
Definition join (a b : string) : string :=
  if startswith "/" b then b
  else if String.eqb a EmptyString || endswith_slash a then a ++ b
  else a ++ String "/" b.

(** [slash * n]. *)
Fixpoint slashes (n : nat) : string :=
  match n with
  | O => EmptyString
  | S n' => String "/" (slashes n')
  end.

(** The body of the loop of [normpath] on [new_comps]: empty and [.]
    components are skipped; a component is appended unless it is [..] and
    can cancel the last one; otherwise the last component, if any, is
    popped. *)
Definition normpath_step (initial_slashes : nat) (new_comps : list string) (comp : string)
  : list string :=
  if String.eqb comp EmptyString || String.eqb comp "." then new_comps
  else if negb (String.eqb comp "..")
          || ((initial_slashes =? 0)%nat && match new_comps with [] => true | _ => false end)
          || match last new_comps with Some l => String.eqb l ".." | None => false end
       then new_comps ++ [comp]
       else removelast new_comps.

(** What [normpath] takes [initial_slashes] to be: two slashes exactly are
    kept, three or more count as one. *)
Definition initial_slashes (path : string) : nat :=
  if startswith "/" path then
    if startswith "//" path && negb (startswith "///" path) then 2 else 1
  else 0.

(** [normpath(path)]. *)
Definition normpath (path : string) : string :=
  if String.eqb path EmptyString then "."
  else
    let comps := Py.split "/" path in
    let new_comps := foldl (normpath_step (initial_slashes path)) [] comps in
    let path' := slashes (initial_slashes path) ++ Py.join "/" new_comps in
    if String.eqb path' EmptyString then "." else path'.

End Path.

(** [file_name_without_extension(path)]. *)
Definition file_name_without_extension (path : option string) : option string :=
  match path with
  | None => None
  | Some p => Some (Path.splitext (Path.basename p)).1
  end.

(** [norm_join(prefix, suffix)]. *)
Definition norm_join (prefix suffix : string) : string :=
  Path.normpath (Path.join prefix suffix).

(** A component of a normalized path: not empty, not [.], without a slash;
    and such a component that is not [..] either. *)
Definition component (comp : string) : Prop :=
  comp <> EmptyString /\ comp <> "." /\ Py.contains "/" comp = false.

Definition plain_component (comp : string) : Prop :=
  component comp /\ comp <> "..".

(** The components of a normalized path with [k] initial slashes: [..]
    components come first, and there is none in an absolute path. *)
Definition normal_components (k : nat) (comps : list string) : Prop :=
  exists (n : nat) (rest : list string),
    comps = (replicate n ".." ++ rest)%list
    /\ Forall plain_component rest
    /\ (k <> 0%nat -> n = 0%nat).

(** The last lines of [normpath]: the initial slashes, the components joined
    by slashes, and [.] when that is empty. *)
Definition normalized_path (k : nat) (comps : list string) : string :=
  let path := Path.slashes k ++ Py.join "/" comps in
  if String.eqb path EmptyString then "." else path.

(** ** The configuration codec *)

Section ConfigCodec.

(** The constants of [aeneas.globalconstants], which this module imports as
    [gc]: the two separators are one-character symbols (the docstrings write
    the format as [key_1=value_1|key_2=value_2]), the two tags are strings. *)
Variable CONFIG_STRING_SEPARATOR_SYMBOL : ascii.
Variable CONFIG_STRING_ASSIGNMENT_SYMBOL : ascii.
Variable CONFIG_XML_TASKS_TAG : string.
Variable CONFIG_XML_TASK_TAG : string.

(** [etree.fromstring] of [lxml]: the root element, or [None] when the call
    raises. *)
Variable fromstring : string -> option Element.

(** [config_txt_to_string(string)]. *)
Definition config_txt_to_string (text_block : option string) : option string :=
  match text_block with
  | None => None
  | Some contents =>
      let pairs := filter (fun l => (0 <? String.length l)%nat = true) (Py.splitlines contents) in
      Some (Py.join CONFIG_STRING_SEPARATOR_SYMBOL pairs)
  end.

(** The message of the warning that [pairs_to_dict] records. *)
Definition invalid_pair_message (pair : string) : string :=
  "Invalid key=value string: '" ++ pair ++ "'".

(** The body of the loop of [pairs_to_dict], on the dictionary built so far
    and the sink ([None] when the caller passed no sink). *)
Definition pairs_to_dict_body (state : gmap string string * option Result) (pair : string)
  : gmap string string * option Result :=
  let '(dictionary, result) := state in
  if (0 <? String.length pair)%nat then
    let tokens := Py.split CONFIG_STRING_ASSIGNMENT_SYMBOL pair in
    if (length tokens =? 2)%nat
       && (0 <? String.length (nth 0 tokens EmptyString))%nat
       && (0 <? String.length (nth 1 tokens EmptyString))%nat
    then (<[nth 0 tokens EmptyString := nth 1 tokens EmptyString]> dictionary, result)
    else match result with
         | Some r => (dictionary, Some (add_warning r (invalid_pair_message pair)))
         | None => (dictionary, None)
         end
  else (dictionary, result).

(** [pairs_to_dict(pairs, result=None)]: the returned dictionary and the sink
    after the call. *)
Definition pairs_to_dict (pairs : list string) (result : option Result)
  : gmap string string * option Result :=
  foldl pairs_to_dict_body (∅, result) pairs.

(** [config_string_to_dict(string, result=None)]. *)
Definition config_string_to_dict (config_string : option string) (result : option Result)
  : gmap string string * option Result :=
  match config_string with
  | None => (∅, result)
  | Some s => pairs_to_dict (Py.split CONFIG_STRING_SEPARATOR_SYMBOL s) result
  end.

(** ["%s%s%s" % (key, gc.CONFIG_STRING_ASSIGNMENT_SYMBOL, value)]. *)
Definition format_pair (key value : string) : string :=
  key ++ String CONFIG_STRING_ASSIGNMENT_SYMBOL value.

(** [config_dict_to_string(dictionary)]: the loop appends one parameter per
    key, in the iteration order of the dictionary. *)
Definition config_dict_to_string (dictionary : gmap string string) : string :=
  let parameters :=
    foldl (fun parameters '(key, value) => (parameters ++ [format_pair key value])%list)
          [] (map_to_list dictionary) in
  Py.join CONFIG_STRING_SEPARATOR_SYMBOL parameters.

(** The tokens that the two XML loops collect from a list of elements:
    [keep] is the test on the element besides [elem.text != None]. *)
Definition collect_pairs (keep : Element -> bool) (elems : list Element) : list string :=
  foldl (fun pairs elem =>
           match text elem with
           | Some t => if keep elem then (pairs ++ [format_pair (tag elem) (Py.strip t)])%list else pairs
           | None => pairs
           end) [] elems.

(** [root.find(gc.CONFIG_XML_TASKS_TAG)]: the first child with that tag. *)
Definition find (root : Element) (name : string) : option Element :=
  List.find (fun elem => String.eqb (tag elem) name) (children root).

(** The body of [try:] in [config_xml_to_dict]; [None] when it raises
    ([fromstring] raises, or [find] returns [None] and the loop over it
    raises). Both branches call [pairs_to_dict] without a sink. *)
Definition config_xml_to_dict_try (contents : string) (parse_job : bool) : option XmlOutput :=
  match fromstring contents with
  | None => None
  | Some root =>
      if parse_job then
        let pairs :=
          collect_pairs (fun elem => negb (String.eqb (tag elem) CONFIG_XML_TASKS_TAG))
                        (children root) in
        Some (OutDict (pairs_to_dict pairs None).1)
      else
        match find root CONFIG_XML_TASKS_TAG with
        | None => None
        | Some tasks =>
            Some (OutList
              (foldl (fun output_list task =>
                        if String.eqb (tag task) CONFIG_XML_TASK_TAG then
                          let pairs := collect_pairs (fun _ => true) (children task) in
                          (output_list ++ [(pairs_to_dict pairs None).1])%list
                        else output_list)
                     [] (children tasks)))
        end
  end.

(** [config_xml_to_dict(contents, result, parse_job=True)]: the returned value
    and the sink after the call. *)
Definition config_xml_to_dict (contents : string) (result : Result) (parse_job : bool)
  : XmlOutput * Result :=
  match config_xml_to_dict_try contents parse_job with
  | Some output => (output, result)
  | None =>
      (OutDict ∅,
       add_error (set_passed result false) "An error occurred while parsing XML file")
  end.

(** ** Vocabulary of the properties *)

(** A token that [pairs_to_dict] accepts: it splits on the assignment symbol
    into exactly two non-empty parts. *)
Definition well_formed (pair : string) : bool :=
  let tokens := Py.split CONFIG_STRING_ASSIGNMENT_SYMBOL pair in
  (length tokens =? 2)%nat
  && (0 <? String.length (nth 0 tokens EmptyString))%nat
  && (0 <? String.length (nth 1 tokens EmptyString))%nat.

(** A token that [pairs_to_dict] reports: non-empty and not accepted. *)
Definition malformed (pair : string) : bool :=
  (0 <? String.length pair)%nat && negb (well_formed pair).

Definition pair_key (pair : string) : string :=
  nth 0 (Py.split CONFIG_STRING_ASSIGNMENT_SYMBOL pair) EmptyString.

Definition pair_value (pair : string) : string :=
  nth 1 (Py.split CONFIG_STRING_ASSIGNMENT_SYMBOL pair) EmptyString.

(** The entry that a token contributes, if any. *)
Definition parse_pair (pair : string) : option (string * string) :=
  if well_formed pair then Some (pair_key pair, pair_value pair) else None.

(** The dictionary after the assignments [dictionary[k] = v], in order. *)
Definition assign_all (dictionary : gmap string string) (entries : list (string * string))
  : gmap string string :=
  foldl (fun d entry => <[entry.1 := entry.2]> d) dictionary entries.

(** The sink after one warning per token, in order. *)
Definition warn_all (result : option Result) (tokens : list string) : option Result :=
  match result with
  | Some r => Some (foldl (fun r pair => add_warning r (invalid_pair_message pair)) r tokens)
  | None => None
  end.

(** A string in which neither separator occurs and which is not empty. *)
Definition plain (s : string) : Prop :=
  s <> EmptyString
  /\ Py.contains CONFIG_STRING_SEPARATOR_SYMBOL s = false
  /\ Py.contains CONFIG_STRING_ASSIGNMENT_SYMBOL s = false.

(** What every entry of a parsed dictionary satisfies. *)
Definition entry_ok (key value : string) : Prop :=
  key <> EmptyString /\ value <> EmptyString
  /\ Py.contains CONFIG_STRING_ASSIGNMENT_SYMBOL key = false
  /\ Py.contains CONFIG_STRING_ASSIGNMENT_SYMBOL value = false.

(** The dictionary of one task or job: its children's tokens, parsed with no
    sink. *)
Definition elements_to_dict (keep : Element -> bool) (elems : list Element)
  : gmap string string :=
  (pairs_to_dict (collect_pairs keep elems) None).1.

Definition is_task (elem : Element) : bool := String.eqb (tag elem) CONFIG_XML_TASK_TAG.

Definition not_tasks (elem : Element) : bool :=
  negb (String.eqb (tag elem) CONFIG_XML_TASKS_TAG).

(** ** Splitting and joining *)

Lemma length_pos_nonempty (s : string) :
  (0 <? String.length s)%nat = true <-> s <> EmptyString.
Proof.
  destruct s as [|a s]; simpl; split; intros H; try done.
Qed.

Lemma contains_app (c : ascii) (x y : string) :
  Py.contains c (x ++ y) = Py.contains c x || Py.contains c y.
Proof.
  induction x as [|a x IH]; simpl; [done|].
  destruct (Ascii.eqb a c); [done|apply IH].
Qed.

Lemma split_nonempty (c : ascii) (s : string) : Py.split c s <> [].
Proof.
  destruct s as [|a s]; simpl; [done|].
  destruct (Ascii.eqb a c); [done|].
  destruct (Py.split c s); done.
Qed.

Lemma split_plain (c : ascii) (s : string) :
  Py.contains c s = false -> Py.split c s = [s].
Proof.
  induction s as [|a s IH]; simpl; [done|].
  destruct (Ascii.eqb a c); [done|].
  intros H. rewrite (IH H). done.
Qed.

Lemma split_app_sep (c : ascii) (x y : string) :
  Py.split c (x ++ String c y) = (Py.split c x ++ Py.split c y)%list.
Proof.
  induction x as [|a x IH]; simpl.
  - rewrite Ascii.eqb_refl. done.
  - destruct (Ascii.eqb a c); [by rewrite IH|].
    rewrite IH. pose proof (split_nonempty c x) as Hne.
    destruct (Py.split c x); done.
Qed.

Lemma split_pieces_plain (c : ascii) (s : string) :
  Forall (fun piece => Py.contains c piece = false) (Py.split c s).
Proof.
  induction s as [|a s IH]; simpl; [by repeat constructor|].
  destruct (Ascii.eqb a c) eqn:E; [by constructor|].
  destruct (Py.split c s) as [|piece pieces]; [by repeat constructor; simpl; rewrite E|].
  inversion IH; subst. constructor; [simpl; by rewrite E|done].
Qed.

Lemma join_cons (c : ascii) (x y : string) (l : list string) :
  Py.join c (x :: y :: l) = x ++ String c (Py.join c (y :: l)).
Proof. reflexivity. Qed.

Lemma join_split (c : ascii) (s : string) : Py.join c (Py.split c s) = s.
Proof.
  induction s as [|a s IH]; [done|].
  cbn [Py.split].
  pose proof (split_nonempty c s) as Hne.
  destruct (Ascii.eqb a c) eqn:E.
  - apply Ascii.eqb_eq in E. subst a.
    destruct (Py.split c s) as [|p ps]; [done|].
    rewrite join_cons, IH. done.
  - destruct (Py.split c s) as [|p ps]; [done|].
    destruct ps as [|q qs].
    + cbn in IH |- *. by rewrite IH.
    + rewrite join_cons in IH |- *. rewrite <- IH. reflexivity.
Qed.

Lemma split_join (c : ascii) (l : list string) :
  l <> [] -> Forall (fun piece => Py.contains c piece = false) l ->
  Py.split c (Py.join c l) = l.
Proof.
  induction l as [|x l IH]; [done|].
  intros _ Hall. inversion Hall as [|? ? Hx Hl]; subst.
  destruct l as [|y l].
  - by apply split_plain.
  - rewrite join_cons, split_app_sep, (split_plain c x Hx). cbn [app]. f_equal.
    apply IH; done.
Qed.

(** ** What [pairs_to_dict] computes *)

Lemma malformed_well_formed (pair : string) :
  well_formed pair = true -> malformed pair = false.
Proof.
  intros H. unfold malformed. rewrite H. apply andb_false_r.
Qed.

Lemma well_formed_nonempty (pair : string) :
  well_formed pair = true -> (0 <? String.length pair)%nat = true.
Proof.
  destruct pair; [|done]. unfold well_formed. simpl. done.
Qed.

(** One turn of the loop: an accepted token is assigned, a rejected non-empty
    token is reported when there is a sink, an empty token is skipped. *)
Lemma pairs_to_dict_body_spec (d : gmap string string) (r : option Result) (pair : string) :
  pairs_to_dict_body (d, r) pair =
  (assign_all d (option_list (parse_pair pair)),
   if malformed pair then warn_all r [pair] else r).
Proof.
  unfold pairs_to_dict_body, parse_pair, malformed.
  destruct (well_formed pair) eqn:Hwf.
  - rewrite (well_formed_nonempty pair Hwf).
    unfold well_formed in Hwf. rewrite Hwf. rewrite andb_false_r. done.
  - destruct (0 <? String.length pair)%nat eqn:Hlen; simpl; [|done].
    unfold well_formed in Hwf. rewrite Hwf. destruct r; done.
Qed.

Lemma assign_all_app (d : gmap string string) (l1 l2 : list (string * string)) :
  assign_all d (l1 ++ l2) = assign_all (assign_all d l1) l2.
Proof. apply foldl_app. Qed.

Lemma warn_all_app (r : option Result) (l1 l2 : list string) :
  warn_all r (l1 ++ l2) = warn_all (warn_all r l1) l2.
Proof. destruct r; simpl; [|done]. by rewrite foldl_app. Qed.

Lemma warn_all_nil (r : option Result) : warn_all r [] = r.
Proof. by destruct r. Qed.

Lemma pairs_to_dict_fold (pairs : list string) (d : gmap string string) (r : option Result) :
  foldl pairs_to_dict_body (d, r) pairs =
  (assign_all d (omap parse_pair pairs),
   warn_all r (filter (fun pair => malformed pair = true) pairs)).
Proof.
  revert d r. induction pairs as [|pair pairs IH]; intros d r.
  - simpl. by rewrite warn_all_nil.
  - cbn [foldl]. rewrite pairs_to_dict_body_spec, IH.
    rewrite filter_cons. f_equal.
    + unfold parse_pair. cbn [omap list_omap]. destruct (well_formed pair); reflexivity.
    + destruct (malformed pair); case_decide; try done.
      symmetry. apply (warn_all_app r [pair]).
Qed.

(** The dictionary holds the accepted tokens, assigned in order; the sink
    receives one warning per rejected non-empty token, in order. *)
Lemma pairs_to_dict_spec (pairs : list string) (r : option Result) :
  pairs_to_dict pairs r =
  (assign_all ∅ (omap parse_pair pairs),
   warn_all r (filter (fun pair => malformed pair = true) pairs)).
Proof. apply pairs_to_dict_fold. Qed.

(** ** Tokens and entries *)

Lemma nonempty_length (s : string) : s <> EmptyString -> (0 <? String.length s)%nat = true.
Proof. apply length_pos_nonempty. Qed.

Lemma split_format_pair (key value : string) :
  Py.contains CONFIG_STRING_ASSIGNMENT_SYMBOL key = false ->
  Py.contains CONFIG_STRING_ASSIGNMENT_SYMBOL value = false ->
  Py.split CONFIG_STRING_ASSIGNMENT_SYMBOL (format_pair key value) = [key; value].
Proof.
  intros Hk Hv. unfold format_pair.
  by rewrite split_app_sep, (split_plain _ _ Hk), (split_plain _ _ Hv).
Qed.

(** A token built from a valid entry is accepted and gives that entry back. *)
Lemma parse_pair_format_pair (key value : string) :
  entry_ok key value -> parse_pair (format_pair key value) = Some (key, value).
Proof.
  intros (Hk & Hv & Hka & Hva).
  unfold parse_pair, well_formed, pair_key, pair_value.
  rewrite (split_format_pair key value Hka Hva). cbn [length nth Nat.eqb].
  by rewrite (nonempty_length _ Hk), (nonempty_length _ Hv).
Qed.

Lemma malformed_format_pair (key value : string) :
  entry_ok key value -> malformed (format_pair key value) = false.
Proof.
  intros H. apply malformed_well_formed.
  pose proof (parse_pair_format_pair key value H) as Hp.
  unfold parse_pair in Hp. by destruct (well_formed (format_pair key value)).
Qed.

(** An accepted token is its key, the assignment symbol and its value, and
    neither side is empty or contains the assignment symbol. *)
Lemma parse_pair_Some (pair key value : string) :
  parse_pair pair = Some (key, value) ->
  entry_ok key value /\ pair = format_pair key value.
Proof.
  unfold parse_pair, well_formed, pair_key, pair_value.
  pose proof (split_pieces_plain CONFIG_STRING_ASSIGNMENT_SYMBOL pair) as Hplain.
  pose proof (join_split CONFIG_STRING_ASSIGNMENT_SYMBOL pair) as Hjoin.
  destruct (Py.split CONFIG_STRING_ASSIGNMENT_SYMBOL pair) as [|t0 [|t1 [|t2 ts]]];
    cbn [length nth Nat.eqb andb]; try done.
  destruct (0 <? String.length t0)%nat eqn:H0; [|done].
  destruct (0 <? String.length t1)%nat eqn:H1; [|done].
  cbn [andb]. intros [= <- <-].
  inversion Hplain as [|? ? Hp0 Hrest]; subst.
  inversion Hrest as [|? ? Hp1 _]; subst.
  repeat split; try done; try by apply length_pos_nonempty.
Qed.

Lemma parse_pair_None_empty : parse_pair EmptyString = None.
Proof. reflexivity. Qed.

(** A tag followed by the assignment symbol and nothing else is rejected,
    whatever the tag is. *)
Lemma parse_pair_empty_value (key : string) : parse_pair (format_pair key EmptyString) = None.
Proof.
  unfold parse_pair, well_formed, format_pair.
  rewrite split_app_sep. cbn [Py.split].
  destruct (Py.split CONFIG_STRING_ASSIGNMENT_SYMBOL key) as [|p [|q qs]]; [done| |].
  - cbn. by rewrite andb_false_r.
  - cbn [app length Nat.eqb]. rewrite length_app. cbn [length].
    replace (length qs + 1)%nat with (S (length qs)) by lia. done.
Qed.

(** ** Dictionaries built by assignment *)

Lemma assign_all_snoc (d : gmap string string) (l : list (string * string)) (k v : string) :
  assign_all d (l ++ [(k, v)]) = <[k := v]> (assign_all d l).
Proof. by rewrite assign_all_app. Qed.

(** With distinct keys the order of the assignments does not matter. *)
Lemma assign_all_list_to_map (l : list (string * string)) :
  NoDup l.*1 -> assign_all ∅ l = list_to_map l.
Proof.
  induction l as [|[k v] l IH] using rev_ind; [done|].
  rewrite fmap_app, NoDup_app. intros (Hl & Hk & _).
  rewrite assign_all_snoc, IH by done.
  symmetry. apply list_to_map_snoc.
  intros Hin. apply (Hk k Hin). cbn. left.
Qed.

(** A key keeps the value of its last assignment. *)
Lemma assign_all_lookup_last (d : gmap string string) (l1 l2 : list (string * string))
      (k v : string) :
  k ∉ l2.*1 -> assign_all d (l1 ++ (k, v) :: l2) !! k = Some v.
Proof.
  intros Hk. rewrite assign_all_app. cbn [assign_all foldl].
  change (foldl _ ?d0 l2) with (assign_all d0 l2).
  generalize (assign_all d l1). intros d0.
  induction l2 as [|[k' v'] l2 IH] using rev_ind.
  - cbn. apply lookup_insert_eq.
  - rewrite assign_all_snoc. rewrite fmap_app in Hk. cbn in Hk.
    rewrite lookup_insert_ne.
    + apply IH. intros Hin. apply Hk. apply elem_of_app. by left.
    + intros ->. apply Hk. apply elem_of_app. right. left.
Qed.

(** Every entry of the dictionary was assigned by the loop or was there. *)
Lemma assign_all_lookup (d : gmap string string) (l : list (string * string)) (k v : string) :
  assign_all d l !! k = Some v -> (k, v) ∈ l \/ d !! k = Some v.
Proof.
  induction l as [|[k' v'] l IH] using rev_ind; [by right|].
  rewrite assign_all_snoc. intros H.
  apply lookup_insert_Some in H as [[<- <-]|[Hne H]].
  - left. apply elem_of_app. right. left.
  - destruct (IH H) as [Hin|Hd]; [|by right].
    left. apply elem_of_app. by left.
Qed.

(** ** Encoding a dictionary *)

(** The list that the loop of [config_dict_to_string] builds. *)
Lemma parameters_fmap (l : list (string * string)) (acc : list string) :
  foldl (fun parameters '(key, value) => (parameters ++ [format_pair key value])%list) acc l
  = (acc ++ (uncurry format_pair <$> l))%list.
Proof.
  revert acc. induction l as [|[k v] l IH]; intros acc; cbn [foldl fmap list_fmap].
  - by rewrite app_nil_r.
  - rewrite IH, <- app_assoc. done.
Qed.

Lemma config_dict_to_string_join (m : gmap string string) :
  config_dict_to_string m
  = Py.join CONFIG_STRING_SEPARATOR_SYMBOL (uncurry format_pair <$> map_to_list m).
Proof. unfold config_dict_to_string. by rewrite parameters_fmap. Qed.

Lemma omap_parse_format (l : list (string * string)) :
  Forall (uncurry entry_ok) l -> omap parse_pair (uncurry format_pair <$> l) = l.
Proof.
  induction 1 as [|[k v] l Hkv Hl IH]; [done|].
  cbn [fmap list_fmap omap list_omap uncurry]. cbn in Hkv.
  by rewrite (parse_pair_format_pair k v Hkv), IH.
Qed.

Lemma filter_malformed_format (l : list (string * string)) :
  Forall (uncurry entry_ok) l ->
  filter (fun pair => malformed pair = true) (uncurry format_pair <$> l) = [].
Proof.
  induction 1 as [|[k v] l Hkv Hl IH]; [done|].
  cbn [fmap list_fmap uncurry]. cbn in Hkv.
  rewrite filter_cons_False; [done|].
  by rewrite (malformed_format_pair k v Hkv).
Qed.

(** Parsing the tokens of valid entries with distinct keys gives the map of
    these entries and leaves the sink as it is. *)
Lemma pairs_to_dict_format (l : list (string * string)) (r : option Result) :
  Forall (uncurry entry_ok) l -> NoDup l.*1 ->
  pairs_to_dict (uncurry format_pair <$> l) r = (list_to_map l, r).
Proof.
  intros Hok Hnd. rewrite pairs_to_dict_spec.
  by rewrite omap_parse_format, filter_malformed_format, assign_all_list_to_map, warn_all_nil.
Qed.

(** Splitting the joined tokens of a dictionary on the pair separator and
    parsing the pieces gives the dictionary back, when its keys and values are
    plain, in whatever order the entries were visited. *)
Lemma decode_encode_any_order (m : gmap string string) (items : list (string * string))
      (r : option Result) :
  CONFIG_STRING_SEPARATOR_SYMBOL <> CONFIG_STRING_ASSIGNMENT_SYMBOL ->
  map_Forall (fun key value => plain key /\ plain value) m ->
  items ≡ₚ map_to_list m ->
  pairs_to_dict
    (Py.split CONFIG_STRING_SEPARATOR_SYMBOL
       (Py.join CONFIG_STRING_SEPARATOR_SYMBOL (uncurry format_pair <$> items))) r
  = (m, r).
Proof.
  intros Hsep Hm Hperm.
  apply map_Forall_to_list in Hm. rewrite <- Hperm in Hm.
  assert (Hnd : NoDup items.*1) by (rewrite Hperm; apply NoDup_fst_map_to_list).
  assert (Hmap : list_to_map items = m).
  { rewrite <- (list_to_map_to_list m). by apply list_to_map_proper. }
  destruct items as [|entry entries].
  - cbn in Hmap. subst m. done.
  - rewrite split_join.
    + rewrite pairs_to_dict_format; [by rewrite Hmap| |done].
      eapply Forall_impl; [exact Hm|].
      intros [k v] ((Hk & _ & Hka) & (Hv & _ & Hva)). by repeat split.
    + done.
    + apply Forall_fmap. eapply Forall_impl; [exact Hm|].
      intros [k v] ((_ & Hks & _) & (_ & Hvs & _)). cbn.
      unfold format_pair. rewrite contains_app. cbn [Py.contains].
      rewrite Hks, Hvs. cbn.
      destruct (Ascii.eqb CONFIG_STRING_ASSIGNMENT_SYMBOL CONFIG_STRING_SEPARATOR_SYMBOL) eqn:E;
        [|done].
      apply Ascii.eqb_eq in E. congruence.
Qed.

Lemma decode_encode (m : gmap string string) (r : option Result) :
  CONFIG_STRING_SEPARATOR_SYMBOL <> CONFIG_STRING_ASSIGNMENT_SYMBOL ->
  map_Forall (fun key value => plain key /\ plain value) m ->
  pairs_to_dict (Py.split CONFIG_STRING_SEPARATOR_SYMBOL (config_dict_to_string m)) r = (m, r).
Proof.
  intros Hsep Hm. rewrite config_dict_to_string_join.
  by apply decode_encode_any_order.
Qed.

Lemma omap_parse_filter (pairs : list string) :
  omap parse_pair pairs
  = (fun pair => (pair_key pair, pair_value pair))
      <$> filter (fun pair => well_formed pair = true) pairs.
Proof.
  induction pairs as [|pair pairs IH]; [done|].
  cbn [omap list_omap]. rewrite filter_cons. unfold parse_pair at 1.
  destruct (well_formed pair); case_decide; try done.
  cbn [fmap list_fmap]. f_equal. apply IH.
Qed.

Lemma elem_of_omap_parse (pairs : list string) (key value : string) :
  (key, value) ∈ omap parse_pair pairs ->
  entry_ok key value /\ format_pair key value ∈ pairs
  /\ well_formed (format_pair key value) = true.
Proof.
  intros Hin. apply list_elem_of_omap in Hin as (pair & Hpair & Hparse).
  pose proof Hparse as Hwf. unfold parse_pair in Hwf.
  apply parse_pair_Some in Hparse as [Hok ->].
  repeat split; try apply Hok; [done|].
  by destruct (well_formed (format_pair key value)).
Qed.

(** Every entry of the result of [pairs_to_dict] is valid and comes from an
    accepted token of the list. *)
Lemma pairs_to_dict_lookup (pairs : list string) (r : option Result) (key value : string) :
  (pairs_to_dict pairs r).1 !! key = Some value ->
  entry_ok key value /\ format_pair key value ∈ pairs
  /\ well_formed (format_pair key value) = true.
Proof.
  rewrite pairs_to_dict_spec. cbn [fst]. intros H.
  apply assign_all_lookup in H as [Hin|Hempty]; [|by rewrite lookup_empty in Hempty].
  by apply elem_of_omap_parse.
Qed.

Lemma pairs_to_dict_entries_ok (pairs : list string) (r : option Result) :
  map_Forall entry_ok (pairs_to_dict pairs r).1.
Proof. intros key value H. by apply pairs_to_dict_lookup in H as [Hok _]. Qed.

(** ** The XML loops *)

Lemma collect_pairs_acc (keep : Element -> bool) (elems : list Element) (acc : list string) :
  foldl (fun pairs elem =>
           match text elem with
           | Some t => if keep elem then (pairs ++ [format_pair (tag elem) (Py.strip t)])%list
                       else pairs
           | None => pairs
           end) acc elems
  = (acc ++ collect_pairs keep elems)%list.
Proof.
  unfold collect_pairs. revert acc.
  induction elems as [|elem elems IH]; intros acc; cbn [foldl].
  - by rewrite app_nil_r.
  - rewrite IH. rewrite (IH (match text elem with Some _ => _ | None => _ end)).
    destruct (text elem) as [t|]; [destruct (keep elem)|]; cbn [app];
      by rewrite <- ?app_assoc.
Qed.

Lemma collect_pairs_app (keep : Element -> bool) (l1 l2 : list Element) :
  collect_pairs keep (l1 ++ l2) = (collect_pairs keep l1 ++ collect_pairs keep l2)%list.
Proof.
  unfold collect_pairs at 1. rewrite foldl_app.
  fold (collect_pairs keep l1). apply collect_pairs_acc.
Qed.

Lemma collect_pairs_cons (keep : Element -> bool) (elem : Element) (elems : list Element) :
  collect_pairs keep (elem :: elems)
  = (match text elem with
     | Some t => if keep elem then [format_pair (tag elem) (Py.strip t)] else []
     | None => []
     end ++ collect_pairs keep elems)%list.
Proof.
  unfold collect_pairs at 1. cbn [foldl]. rewrite collect_pairs_acc.
  by destruct (text elem) as [t|]; [destruct (keep elem)|].
Qed.

(** The loop over the children of the tasks container appends one dictionary
    per task element, in order. *)
Lemma output_list_fmap (tasks : list Element) (acc : list (gmap string string)) :
  foldl (fun output_list task =>
           if String.eqb (tag task) CONFIG_XML_TASK_TAG then
             let pairs := collect_pairs (fun _ => true) (children task) in
             (output_list ++ [(pairs_to_dict pairs None).1])%list
           else output_list) acc tasks
  = (acc ++ ((fun task => elements_to_dict (fun _ => true) (children task))
              <$> filter (fun elem => is_task elem = true) tasks))%list.
Proof.
  revert acc. induction tasks as [|task tasks IH]; intros acc; cbn [foldl].
  - by rewrite app_nil_r.
  - rewrite IH.
    change (String.eqb (tag task) CONFIG_XML_TASK_TAG) with (is_task task).
    destruct (is_task task) eqn:Htask.
    + rewrite filter_cons_True by done. cbn [fmap list_fmap].
      by rewrite <- app_assoc.
    + rewrite filter_cons_False by (by rewrite Htask). done.
Qed.

(** ** Properties of the codec *)

(** C1: round trip. For a dictionary whose keys and values are non-empty
    strings in which neither the pair separator nor the assignment separator
    occurs, decoding the encoded dictionary gives the dictionary back, and a
    sink that is passed receives nothing. *)
Theorem config_string_to_dict_of_dict_to_string
        (m : gmap string string) (result : option Result) :
  CONFIG_STRING_SEPARATOR_SYMBOL <> CONFIG_STRING_ASSIGNMENT_SYMBOL ->
  map_Forall (fun key value => plain key /\ plain value) m ->
  config_string_to_dict (Some (config_dict_to_string m)) result = (m, result).
Proof.
  intros Hsep Hm. unfold config_string_to_dict. by apply decode_encode.
Qed.

(** C2: when parsing fails, [config_xml_to_dict] marks the sink failed,
    appends exactly one error and returns without raising; the value it
    returns is an empty dictionary whatever [parse_job] is, so with
    [parse_job] false it is not the empty list. *)
Theorem config_xml_to_dict_parse_failure
        (contents : string) (result : Result) (parse_job : bool) :
  fromstring contents = None ->
  config_xml_to_dict contents result parse_job
  = (OutDict ∅,
     {| passed := false;
        warnings := warnings result;
        errors := errors result ++ ["An error occurred while parsing XML file"] |})
  /\ (config_xml_to_dict contents result false).1 <> OutList [].
Proof.
  intros Hparse. unfold config_xml_to_dict, config_xml_to_dict_try.
  rewrite Hparse. split; [reflexivity|discriminate].
Qed.

(** C3: leniency. When exactly one token of the list is well formed and
    exactly one is malformed and not empty, [pairs_to_dict] returns the
    one-entry dictionary of the well-formed token; with a sink it appends
    exactly one warning, which quotes the malformed token; without a sink it
    returns the same dictionary and reports nothing. *)
Theorem pairs_to_dict_one_malformed
        (pairs : list string) (good bad : string) (result : Result) :
  filter (fun pair => well_formed pair = true) pairs = [good] ->
  filter (fun pair => malformed pair = true) pairs = [bad] ->
  pairs_to_dict pairs (Some result)
  = ({[pair_key good := pair_value good]},
     Some {| passed := passed result;
             warnings := warnings result ++ ["Invalid key=value string: '" ++ bad ++ "'"];
             errors := errors result |})
  /\ pairs_to_dict pairs None = ({[pair_key good := pair_value good]}, None).
Proof.
  intros Hgood Hbad.
  rewrite !pairs_to_dict_spec, omap_parse_filter, Hgood, Hbad.
  cbn [fmap list_fmap assign_all foldl warn_all fst snd].
  rewrite insert_empty. done.
Qed.

(** C5, as the code has it: for absent text [config_txt_to_string] returns
    [None], and for the empty text it returns the empty string. *)
Theorem config_txt_to_string_no_text :
  config_txt_to_string None = None
  /\ config_txt_to_string (Some EmptyString) = Some EmptyString.
Proof. split; reflexivity. Qed.

(** C7: for a document that parses and has a tasks container, the tasks form
    returns one dictionary per child of the container whose tag is the task
    tag, in document order: the i-th dictionary is that of the i-th task
    element. The sink is left as it is. *)
Theorem config_xml_to_dict_tasks_in_order
        (contents : string) (result : Result) (root tasks : Element) :
  fromstring contents = Some root ->
  find root CONFIG_XML_TASKS_TAG = Some tasks ->
  exists output_list : list (gmap string string),
    config_xml_to_dict contents result false = (OutList output_list, result)
    /\ output_list
       = (fun task => elements_to_dict (fun _ => true) (children task))
           <$> filter (fun elem => is_task elem = true) (children tasks)
    /\ length output_list
       = length (filter (fun elem => is_task elem = true) (children tasks))
    /\ forall (i : nat) (task : Element),
         filter (fun elem => is_task elem = true) (children tasks) !! i = Some task ->
         output_list !! i = Some (elements_to_dict (fun _ => true) (children task)).
Proof.
  intros Hroot Htasks. eexists. split; [|split; [reflexivity|split]].
  - unfold config_xml_to_dict, config_xml_to_dict_try.
    rewrite Hroot, Htasks, output_list_fmap. reflexivity.
  - by rewrite length_fmap.
  - intros i task Hi. by rewrite list_lookup_fmap, Hi.
Qed.

(** C8, with the precondition it needs: when the accepted tokens of the list
    have pairwise distinct keys and the pair separator occurs in none of
    them, parsing, encoding, splitting on the pair separator and parsing again
    gives the dictionary of the first parse. *)
Theorem pairs_to_dict_reparse
        (pairs : list string) (result result' : option Result) :
  CONFIG_STRING_SEPARATOR_SYMBOL <> CONFIG_STRING_ASSIGNMENT_SYMBOL ->
  NoDup (pair_key <$> filter (fun pair => well_formed pair = true) pairs) ->
  Forall (fun pair => well_formed pair = true ->
                      Py.contains CONFIG_STRING_SEPARATOR_SYMBOL pair = false) pairs ->
  pairs_to_dict
    (Py.split CONFIG_STRING_SEPARATOR_SYMBOL
       (config_dict_to_string (pairs_to_dict pairs result).1)) result'
  = ((pairs_to_dict pairs result).1, result').
Proof.
  intros Hsep _ Hplain. apply decode_encode; [done|].
  intros key value Hlookup.
  apply pairs_to_dict_lookup in Hlookup as ((Hk & Hv & Hka & Hva) & Hin & Hwf).
  rewrite Forall_forall in Hplain. specialize (Hplain _ Hin Hwf).
  unfold format_pair in Hplain. rewrite contains_app in Hplain. cbn [Py.contains] in Hplain.
  apply orb_false_elim in Hplain as [Hks Hrest].
  destruct (Ascii.eqb CONFIG_STRING_ASSIGNMENT_SYMBOL CONFIG_STRING_SEPARATOR_SYMBOL);
    [done|].
  by repeat split.
Qed.

(** C9: every dictionary that [pairs_to_dict] returns, and so every
    dictionary that [config_string_to_dict] or [config_xml_to_dict] returns,
    has only non-empty keys and values in which the assignment separator does
    not occur. *)
Theorem parsed_entries_ok :
  (forall pairs result, map_Forall entry_ok (pairs_to_dict pairs result).1)
  /\ (forall config_string result,
        map_Forall entry_ok (config_string_to_dict config_string result).1)
  /\ (forall contents result parse_job,
        match (config_xml_to_dict contents result parse_job).1 with
        | OutDict dictionary => map_Forall entry_ok dictionary
        | OutList output_list => Forall (map_Forall entry_ok) output_list
        end).
Proof.
  split; [|split].
  - apply pairs_to_dict_entries_ok.
  - intros [s|] result; cbn [config_string_to_dict fst].
    + apply pairs_to_dict_entries_ok.
    + apply map_Forall_empty.
  - intros contents result parse_job.
    unfold config_xml_to_dict, config_xml_to_dict_try.
    destruct (fromstring contents) as [root|]; [|apply map_Forall_empty].
    destruct parse_job.
    + apply pairs_to_dict_entries_ok.
    + destruct (find root CONFIG_XML_TASKS_TAG) as [tasks|]; [|apply map_Forall_empty].
      cbn [fst]. rewrite output_list_fmap. cbn [app].
      apply Forall_fmap, Forall_forall. intros task _.
      apply pairs_to_dict_entries_ok.
Qed.

(** C10: in the job form the tokens are parsed without the sink. A child of
    the root whose text is not [None] but strips to the empty string adds
    nothing to the dictionary, which is the one the document without that
    child gives, and the sink passed to the call is returned unchanged: no
    warning is recorded. *)
Theorem config_xml_to_dict_job_blank_text
        (contents : string) (result : Result) (root elem : Element)
        (before after : list Element) (t : string) :
  fromstring contents = Some root ->
  children root = (before ++ elem :: after)%list ->
  text elem = Some t ->
  Py.strip t = EmptyString ->
  config_xml_to_dict contents result true
  = (OutDict (elements_to_dict not_tasks (before ++ after)), result).
Proof.
  intros Hroot Hchildren Htext Hstrip.
  unfold config_xml_to_dict, config_xml_to_dict_try. rewrite Hroot, Hchildren.
  fold not_tasks. unfold elements_to_dict. do 2 f_equal.
  rewrite !pairs_to_dict_spec. cbn [fst]. f_equal.
  rewrite !collect_pairs_app, collect_pairs_cons, Htext, Hstrip, !omap_app.
  f_equal. destruct (not_tasks elem); [|done].
  cbn [app omap list_omap]. by rewrite parse_pair_empty_value.
Qed.

(** ** Further properties of [pairs_to_dict] and [config_string_to_dict] *)

Lemma warn_all_warnings (r : Result) (tokens : list string) :
  foldl (fun r pair => add_warning r (invalid_pair_message pair)) r tokens
  = {| passed := passed r;
       warnings := warnings r ++ (invalid_pair_message <$> tokens);
       errors := errors r |}.
Proof.
  revert r. induction tokens as [|pair tokens IH]; intros r; cbn [foldl fmap list_fmap].
  - rewrite app_nil_r. by destruct r.
  - rewrite IH. unfold add_warning. cbn. by rewrite <- app_assoc.
Qed.

Lemma assign_all_union (d : gmap string string) (l : list (string * string)) :
  assign_all d l = assign_all ∅ l ∪ d.
Proof.
  induction l as [|[k v] l IH] using rev_ind.
  - cbn. by rewrite (left_id ∅ (∪)).
  - rewrite !assign_all_snoc, IH. by rewrite insert_union_l.
Qed.

Lemma assign_all_lookup_None (d : gmap string string) (l : list (string * string)) (k : string) :
  assign_all d l !! k = None <-> (k ∉ l.*1) /\ d !! k = None.
Proof.
  induction l as [|[k' v'] l IH] using rev_ind.
  - cbn. split; [intros H; split; [apply not_elem_of_nil|done]|by intros [_ H]].
  - rewrite assign_all_snoc, lookup_insert_None, IH, fmap_app, not_elem_of_app.
    cbn. rewrite list_elem_of_singleton. intuition congruence.
Qed.

(** Appending token lists: the second list is parsed with the sink that the
    first list leaves, and its entries win. *)
Lemma pairs_to_dict_app (l1 l2 : list string) (r : option Result) :
  pairs_to_dict (l1 ++ l2) r
  = ((pairs_to_dict l2 (pairs_to_dict l1 r).2).1 ∪ (pairs_to_dict l1 r).1,
     (pairs_to_dict l2 (pairs_to_dict l1 r).2).2).
Proof.
  rewrite !pairs_to_dict_spec. cbn [fst snd].
  rewrite omap_app, filter_app, assign_all_app, warn_all_app.
  by rewrite (assign_all_union (assign_all ∅ (omap parse_pair l1))).
Qed.

Lemma parse_pair_nonempty (pair : string) (entry : string * string) :
  parse_pair pair = Some entry -> pair <> EmptyString.
Proof. intros H ->. by rewrite parse_pair_None_empty in H. Qed.

Lemma omap_parse_skip_empty (pairs : list string) :
  omap parse_pair (filter (fun pair => pair <> EmptyString) pairs) = omap parse_pair pairs.
Proof.
  induction pairs as [|pair pairs IH]; [done|].
  rewrite filter_cons. case_decide as Hne.
  - cbn [omap list_omap]. by rewrite IH.
  - subst pair. cbn [omap list_omap]. by rewrite parse_pair_None_empty.
Qed.

Lemma filter_malformed_skip_empty (pairs : list string) :
  filter (fun pair => malformed pair = true) (filter (fun pair => pair <> EmptyString) pairs)
  = filter (fun pair => malformed pair = true) pairs.
Proof.
  induction pairs as [|pair pairs IH]; [done|].
  rewrite (filter_cons (fun pair => pair <> EmptyString)). case_decide as Hne.
  - rewrite !filter_cons, IH. done.
  - subst pair. rewrite IH. by rewrite filter_cons_False.
Qed.

Lemma pairs_to_dict_filter_empty (pairs : list string) (r : option Result) :
  pairs_to_dict (filter (fun pair => pair <> EmptyString) pairs) r = pairs_to_dict pairs r.
Proof.
  by rewrite !pairs_to_dict_spec, omap_parse_skip_empty, filter_malformed_skip_empty.
Qed.

(** X1: [pairs_to_dict] changes nothing of the sink but its warnings. With a
    sink, the pass flag and the errors are kept and one warning per rejected
    non-empty token is appended after the warnings already there, in the
    order of the tokens; the returned dictionary is the same with any sink and
    with none. *)
Theorem pairs_to_dict_sink_effect (pairs : list string) (result : Result) :
  (pairs_to_dict pairs (Some result)).2
  = Some {| passed := passed result;
            warnings := warnings result
                        ++ (invalid_pair_message
                              <$> filter (fun pair => malformed pair = true) pairs);
            errors := errors result |}
  /\ (pairs_to_dict pairs None).2 = None
  /\ (pairs_to_dict pairs (Some result)).1 = (pairs_to_dict pairs None).1.
Proof.
  rewrite !pairs_to_dict_spec. cbn [fst snd warn_all].
  by rewrite warn_all_warnings.
Qed.

(** X2: membership. A key is missing from the result of [pairs_to_dict]
    exactly when no well-formed token of the list has that key, and a key
    that is present carries the value of some well-formed token with that
    key. *)
Theorem pairs_to_dict_lookup_None_iff (pairs : list string) (result : option Result)
        (key : string) :
  ((pairs_to_dict pairs result).1 !! key = None
   <-> forall pair, pair ∈ pairs -> well_formed pair = true -> pair_key pair <> key)
  /\ (forall value, (pairs_to_dict pairs result).1 !! key = Some value ->
        exists pair, pair ∈ pairs /\ well_formed pair = true
                     /\ pair_key pair = key /\ pair_value pair = value).
Proof.
  rewrite pairs_to_dict_spec. cbn [fst]. split.
  - rewrite assign_all_lookup_None, omap_parse_filter. split.
    + intros [Hnot _] pair Hin Hwf Hkey. apply Hnot.
      apply list_elem_of_fmap. exists (pair_key pair, pair_value pair). split; [done|].
      apply list_elem_of_fmap. exists pair. split; [done|].
      by apply list_elem_of_filter.
    + intros Hnone. split; [|apply lookup_empty].
      intros Hin. apply list_elem_of_fmap in Hin as ([k v] & Hk & Hin). cbn in Hk. subst k.
      apply list_elem_of_fmap in Hin as (pair & Heq & Hin).
      apply list_elem_of_filter in Hin as [Hwf Hin].
      injection Heq as Hkey _. by apply (Hnone pair Hin Hwf).
  - intros value Hlookup.
    apply assign_all_lookup in Hlookup as [Hin|Hempty]; [|by rewrite lookup_empty in Hempty].
    rewrite omap_parse_filter in Hin.
    apply list_elem_of_fmap in Hin as (pair & Heq & Hin).
    apply list_elem_of_filter in Hin as [Hwf Hin].
    injection Heq as Hkey Hvalue. by exists pair.
Qed.

(** X3: empty tokens do not count. Removing the empty strings from the list
    changes neither the dictionary nor the sink, so a doubled, leading or
    trailing pair separator in a configuration string is harmless and is not
    reported. *)
Theorem pairs_to_dict_skips_empty (pairs : list string) (result : option Result) :
  pairs_to_dict (filter (fun pair => pair <> EmptyString) pairs) result
  = pairs_to_dict pairs result
  /\ (forall s : string,
        config_string_to_dict
          (Some (String CONFIG_STRING_SEPARATOR_SYMBOL
                   (s ++ String CONFIG_STRING_SEPARATOR_SYMBOL EmptyString))) result
        = config_string_to_dict (Some s) result).
Proof.
  split; [apply pairs_to_dict_filter_empty|].
  intros s. unfold config_string_to_dict.
  change (String CONFIG_STRING_SEPARATOR_SYMBOL
            (s ++ String CONFIG_STRING_SEPARATOR_SYMBOL EmptyString))
    with (EmptyString ++ String CONFIG_STRING_SEPARATOR_SYMBOL
            (s ++ String CONFIG_STRING_SEPARATOR_SYMBOL EmptyString)).
  rewrite !split_app_sep. cbn [Py.split app].
  rewrite <- (pairs_to_dict_filter_empty (_ :: _)).
  rewrite filter_cons_False by (by intros H; apply H).
  rewrite filter_app, (filter_cons_False _ EmptyString) by (by intros H; apply H).
  rewrite filter_nil, app_nil_r. apply pairs_to_dict_filter_empty.
Qed.

(** X4: concatenation. Parsing two token lists one after the other is parsing
    the second with the sink the first leaves and letting its entries win; so
    the configuration string [s1 + sep + s2] gives the entries of [s2] over
    those of [s1], and the warnings of [s1] followed by those of [s2]. *)
Theorem config_string_to_dict_concat (s1 s2 : string) (result : option Result) :
  config_string_to_dict (Some (s1 ++ String CONFIG_STRING_SEPARATOR_SYMBOL s2)) result
  = ((config_string_to_dict (Some s2) (config_string_to_dict (Some s1) result).2).1
       ∪ (config_string_to_dict (Some s1) result).1,
     (config_string_to_dict (Some s2) (config_string_to_dict (Some s1) result).2).2).
Proof.
  unfold config_string_to_dict. rewrite split_app_sep. apply pairs_to_dict_app.
Qed.

Lemma contains_format_pair (c : ascii) (key value : string) :
  c <> CONFIG_STRING_ASSIGNMENT_SYMBOL ->
  Py.contains c (format_pair key value) = false ->
  Py.contains c key = false /\ Py.contains c value = false.
Proof.
  intros Hc. unfold format_pair. rewrite contains_app. cbn [Py.contains].
  intros H. apply orb_false_elim in H as [Hk Hrest]. split; [done|].
  destruct (Ascii.eqb CONFIG_STRING_ASSIGNMENT_SYMBOL c); done.
Qed.

Lemma config_string_to_dict_plain (config_string : option string) (r : option Result) :
  CONFIG_STRING_SEPARATOR_SYMBOL <> CONFIG_STRING_ASSIGNMENT_SYMBOL ->
  map_Forall (fun key value => plain key /\ plain value)
             (config_string_to_dict config_string r).1.
Proof.
  intros Hsep. destruct config_string as [s|]; [|apply map_Forall_empty].
  intros key value Hlookup. cbn [config_string_to_dict] in Hlookup.
  apply pairs_to_dict_lookup in Hlookup as ((Hk & Hv & Hka & Hva) & Hin & _).
  pose proof (split_pieces_plain CONFIG_STRING_SEPARATOR_SYMBOL s) as Hpieces.
  rewrite Forall_forall in Hpieces. specialize (Hpieces _ Hin).
  apply contains_format_pair in Hpieces as [Hks Hvs]; [|done].
  by repeat split.
Qed.

(** X5: parsing is stable under re-encoding, for every configuration string.
    The dictionary parsed from a string (or from no string), encoded with
    [config_dict_to_string] and parsed again is the same dictionary, and the
    second parse reports nothing. *)
Theorem config_string_to_dict_reencode
        (config_string : option string) (result result' : option Result) :
  CONFIG_STRING_SEPARATOR_SYMBOL <> CONFIG_STRING_ASSIGNMENT_SYMBOL ->
  config_string_to_dict
    (Some (config_dict_to_string (config_string_to_dict config_string result).1)) result'
  = ((config_string_to_dict config_string result).1, result').
Proof.
  intros Hsep. unfold config_string_to_dict at 1.
  apply decode_encode; [done|]. by apply config_string_to_dict_plain.
Qed.

(** X6: the encoding loses nothing. Two dictionaries with plain keys and
    values that have the same encoding are equal, and only the empty
    dictionary is encoded as the empty string. *)
Theorem config_dict_to_string_injective (m1 m2 : gmap string string) :
  CONFIG_STRING_SEPARATOR_SYMBOL <> CONFIG_STRING_ASSIGNMENT_SYMBOL ->
  map_Forall (fun key value => plain key /\ plain value) m1 ->
  map_Forall (fun key value => plain key /\ plain value) m2 ->
  (config_dict_to_string m1 = config_dict_to_string m2 -> m1 = m2)
  /\ (config_dict_to_string m1 = EmptyString <-> m1 = ∅).
Proof.
  intros Hsep H1 H2. split.
  - intros Heq.
    pose proof (decode_encode m1 None Hsep H1) as E1.
    pose proof (decode_encode m2 None Hsep H2) as E2.
    rewrite Heq in E1. congruence.
  - split.
    + intros Hempty. pose proof (decode_encode m1 None Hsep H1) as E1.
      rewrite Hempty in E1. cbn in E1. congruence.
    + intros ->. reflexivity.
Qed.

Lemma assign_all_size (d : gmap string string) (l : list (string * string)) :
  size (assign_all d l) <= size d + length l.
Proof.
  induction l as [|[k v] l IH] using rev_ind; [cbn; lia|].
  rewrite assign_all_snoc, map_size_insert, length_app. cbn.
  destruct (assign_all d l !! k); cbn; lia.
Qed.

Lemma omap_parse_keys (pairs : list string) :
  (omap parse_pair pairs).*1
  = pair_key <$> filter (fun pair => well_formed pair = true) pairs.
Proof. rewrite omap_parse_filter, <- list_fmap_compose. done. Qed.

(** X7: size. The dictionary has at most one entry per well-formed token, and
    exactly one per well-formed token when their keys are pairwise
    distinct. *)
Theorem pairs_to_dict_size (pairs : list string) (result : option Result) :
  size (pairs_to_dict pairs result).1
  <= length (filter (fun pair => well_formed pair = true) pairs)
  /\ (NoDup (pair_key <$> filter (fun pair => well_formed pair = true) pairs) ->
      size (pairs_to_dict pairs result).1
      = length (filter (fun pair => well_formed pair = true) pairs)).
Proof.
  rewrite pairs_to_dict_spec. cbn [fst]. split.
  - pose proof (assign_all_size ∅ (omap parse_pair pairs)) as H.
    rewrite map_size_empty in H.
    replace (length (omap parse_pair pairs))
      with (length (filter (fun pair => well_formed pair = true) pairs)) in H
      by (by rewrite omap_parse_filter, length_fmap).
    lia.
  - intros Hnd. rewrite <- omap_parse_keys in Hnd.
    rewrite assign_all_list_to_map, map_size_list_to_map by done.
    by rewrite omap_parse_filter, length_fmap.
Qed.

(** ** The text form *)

Lemma split_join_concat (c : ascii) (l : list string) :
  l <> [] -> Py.split c (Py.join c l) = concat (Py.split c <$> l).
Proof.
  induction l as [|x l IH]; [done|]. intros _.
  destruct l as [|y l].
  - cbn. by rewrite app_nil_r.
  - rewrite join_cons, split_app_sep, IH by done. reflexivity.
Qed.

Lemma filter_nonempty_concat_split (c : ascii) (lines : list string) :
  filter (fun pair => pair <> EmptyString)
         (concat (Py.split c <$> filter (fun l => (0 <? String.length l)%nat = true) lines))
  = filter (fun pair => pair <> EmptyString) (concat (Py.split c <$> lines)).
Proof.
  induction lines as [|line lines IH]; [done|].
  rewrite (filter_cons (fun l => (0 <? String.length l)%nat = true)).
  case_decide as Hlen.
  - cbn [fmap list_fmap concat]. by rewrite !filter_app, IH.
  - destruct line as [|a line]; [|done].
    cbn [fmap list_fmap concat Py.split app].
    rewrite (filter_cons_False _ EmptyString) by (by intros H; apply H). done.
Qed.

(** X8: parsing a TXT configuration. Converting the text to a configuration
    string and parsing that string is parsing, in order, the pieces into
    which the pair separator splits each line of the text; empty lines add
    nothing. For absent text the result is the empty dictionary and the sink
    is not touched. *)
Theorem config_txt_to_dict (contents : string) (result : option Result) :
  config_string_to_dict (config_txt_to_string (Some contents)) result
  = pairs_to_dict
      (concat (Py.split CONFIG_STRING_SEPARATOR_SYMBOL <$> Py.splitlines contents)) result
  /\ config_string_to_dict (config_txt_to_string None) result = (∅, result).
Proof.
  split; [|reflexivity].
  unfold config_txt_to_string, config_string_to_dict.
  rewrite <- pairs_to_dict_filter_empty.
  rewrite <- (pairs_to_dict_filter_empty (concat _)).
  f_equal. rewrite <- filter_nonempty_concat_split.
  destruct (filter (fun l => (0 <? String.length l)%nat = true) (Py.splitlines contents))
    as [|line lines] eqn:Hlines.
  - reflexivity.
  - by rewrite split_join_concat.
Qed.

Lemma splitlines_no_break_bounded (n : nat) (s : string) :
  String.length s <= n ->
  Forall (fun line => Py.contains "010" line = false /\ Py.contains "013" line = false)
         (Py.splitlines s).
Proof.
  revert s. induction n as [|n IH]; intros s Hlen.
  - destruct s; [constructor|cbn in Hlen; lia].
  - destruct s as [|a s]; [constructor|]. cbn in Hlen. cbn [Py.splitlines].
    destruct (Ascii.eqb a "010") eqn:Elf.
    { constructor; [done|]. apply IH. lia. }
    destruct (Ascii.eqb a "013") eqn:Ecr.
    { destruct s as [|b s]; [by repeat constructor|]. cbn in Hlen.
      destruct (Ascii.eqb b "010"); (constructor; [done|]); apply IH; cbn; lia. }
    assert (Hs : String.length s <= n) by lia. specialize (IH s Hs).
    destruct (Py.splitlines s) as [|line lines].
    + repeat constructor; cbn; by rewrite ?Elf, ?Ecr.
    + inversion IH as [|? ? [Hl Hc] Hrest]; subst.
      constructor; [|done]. cbn. by rewrite Elf, Ecr.
Qed.

Lemma contains_join (c sep : ascii) (l : list string) :
  c <> sep -> Forall (fun piece => Py.contains c piece = false) l ->
  Py.contains c (Py.join sep l) = false.
Proof.
  intros Hc. induction 1 as [|x l Hx Hl IH]; [done|].
  destruct l as [|y l]; [done|].
  rewrite join_cons, contains_app, Hx. cbn [Py.contains orb].
  destruct (Ascii.eqb sep c) eqn:E; [|exact IH].
  apply Ascii.eqb_eq in E. congruence.
Qed.

(** X9: the configuration string made from a text has no line break in it,
    when the pair separator is not itself a line break: the lines of the text
    are joined, and nothing of the line ends is kept. *)
Theorem config_txt_to_string_no_line_break (contents config_string : string) :
  CONFIG_STRING_SEPARATOR_SYMBOL <> "010"%char ->
  CONFIG_STRING_SEPARATOR_SYMBOL <> "013"%char ->
  config_txt_to_string (Some contents) = Some config_string ->
  Py.contains "010" config_string = false /\ Py.contains "013" config_string = false.
Proof.
  intros Hlf Hcr [= <-].
  pose proof (splitlines_no_break_bounded _ contents (le_n _)) as Hlines.
  split; (apply contains_join; [done|]);
    apply Forall_forall; intros line Hin;
    apply list_elem_of_filter in Hin as [_ Hin];
    rewrite Forall_forall in Hlines; by destruct (Hlines line Hin).
Qed.

(** ** The XML form *)

Lemma find_None (root : Element) (name : string) :
  Forall (fun elem => tag elem <> name) (children root) -> find root name = None.
Proof.
  unfold find. induction 1 as [|elem elems Hne Hrest IH]; [done|].
  cbn [List.find]. destruct (String.eqb (tag elem) name) eqn:E; [|done].
  apply String.eqb_eq in E. done.
Qed.

(** X10: a document that parses but has no tasks container is handled, in the
    tasks form, like a document that does not parse: the loop over the
    missing container raises, so the sink is marked failed, one error is
    appended and an empty dictionary is returned. *)
Theorem config_xml_to_dict_no_tasks_container
        (contents : string) (result : Result) (root : Element) :
  fromstring contents = Some root ->
  Forall (fun elem => tag elem <> CONFIG_XML_TASKS_TAG) (children root) ->
  config_xml_to_dict contents result false
  = (OutDict ∅,
     {| passed := false;
        warnings := warnings result;
        errors := errors result ++ ["An error occurred while parsing XML file"] |}).
Proof.
  intros Hroot Hnone. unfold config_xml_to_dict, config_xml_to_dict_try.
  by rewrite Hroot, (find_None root _ Hnone).
Qed.

(** X11: what [config_xml_to_dict] does to the sink, for every input. It
    never records a warning. Either the sink comes back as it was, or the
    call returns an empty dictionary, the sink is marked failed and exactly
    one error is appended after the errors already there. *)
Theorem config_xml_to_dict_sink (contents : string) (result : Result) (parse_job : bool) :
  warnings (config_xml_to_dict contents result parse_job).2 = warnings result
  /\ ((config_xml_to_dict contents result parse_job).2 = result
      \/ ((config_xml_to_dict contents result parse_job).1 = OutDict ∅
          /\ passed (config_xml_to_dict contents result parse_job).2 = false
          /\ errors (config_xml_to_dict contents result parse_job).2
             = (errors result ++ ["An error occurred while parsing XML file"])%list)).
Proof.
  unfold config_xml_to_dict.
  destruct (config_xml_to_dict_try contents parse_job); cbn; [by split; [|left]|].
  split; [done|]. by right.
Qed.

Lemma elem_of_collect_pairs (keep : Element -> bool) (elems : list Element) (token : string) :
  token ∈ collect_pairs keep elems ->
  exists elem t, elem ∈ elems /\ keep elem = true /\ text elem = Some t
                 /\ token = format_pair (tag elem) (Py.strip t).
Proof.
  induction elems as [|elem elems IH]; [by intros H; apply elem_of_nil in H|].
  rewrite collect_pairs_cons, elem_of_app. intros [Hhere|Hthere].
  - destruct (text elem) as [t|] eqn:Ht; [|by apply elem_of_nil in Hhere].
    destruct (keep elem) eqn:Hk; [|by apply elem_of_nil in Hhere].
    apply list_elem_of_singleton in Hhere. exists elem, t.
    split; [left|done].
  - destruct (IH Hthere) as (e & t & Hin & H). exists e, t. split; [by right|done].
Qed.

(** A token determines its key and value, when the key and the value found
    for it are free of the assignment symbol. *)
Lemma format_pair_inj (key value key' value' : string) :
  Py.contains CONFIG_STRING_ASSIGNMENT_SYMBOL key = false ->
  Py.contains CONFIG_STRING_ASSIGNMENT_SYMBOL value = false ->
  format_pair key value = format_pair key' value' ->
  key = key' /\ value = value'.
Proof.
  intros Hk Hv Heq.
  pose proof (split_format_pair key value Hk Hv) as Hsplit.
  rewrite Heq in Hsplit. unfold format_pair in Hsplit. rewrite split_app_sep in Hsplit.
  pose proof (join_split CONFIG_STRING_ASSIGNMENT_SYMBOL key') as Jk.
  pose proof (join_split CONFIG_STRING_ASSIGNMENT_SYMBOL value') as Jv.
  pose proof (split_nonempty CONFIG_STRING_ASSIGNMENT_SYMBOL key') as Nk.
  pose proof (split_nonempty CONFIG_STRING_ASSIGNMENT_SYMBOL value') as Nv.
  destruct (Py.split CONFIG_STRING_ASSIGNMENT_SYMBOL key') as [|a [|b l]];
    destruct (Py.split CONFIG_STRING_ASSIGNMENT_SYMBOL value') as [|c [|d l']];
    cbn in Hsplit; try done; try (by destruct l; inversion Hsplit).
  injection Hsplit as -> ->. cbn in Jk, Jv. done.
Qed.

Lemma rstrip_cons (a : ascii) (s : string) :
  Py.rstrip (String a s)
  = match Py.rstrip s with
    | EmptyString => if Py.isspace a then EmptyString else String a EmptyString
    | r => String a r
    end.
Proof. reflexivity. Qed.

Lemma rstrip_idempotent (s : string) : Py.rstrip (Py.rstrip s) = Py.rstrip s.
Proof.
  induction s as [|a s IH]; [done|]. rewrite rstrip_cons.
  destruct (Py.rstrip s) as [|b r] eqn:E.
  - destruct (Py.isspace a) eqn:Ea; cbn; by rewrite ?Ea.
  - by rewrite rstrip_cons, IH.
Qed.

Lemma lstrip_rstrip_head (a : ascii) (s : string) :
  Py.isspace a = false -> Py.lstrip (Py.rstrip (String a s)) = Py.rstrip (String a s).
Proof.
  intros Ha. rewrite rstrip_cons.
  destruct (Py.rstrip s); rewrite ?Ha; cbn [Py.lstrip]; by rewrite Ha.
Qed.

Lemma lstrip_head (s : string) :
  Py.lstrip s = EmptyString
  \/ exists a s', Py.lstrip s = String a s' /\ Py.isspace a = false.
Proof.
  induction s as [|a s IH]; [by left|]. cbn [Py.lstrip].
  destruct (Py.isspace a) eqn:Ea; [exact IH|]. right. by exists a, s.
Qed.

(** Stripping twice is stripping once. *)
Lemma strip_idempotent (s : string) : Py.strip (Py.strip s) = Py.strip s.
Proof.
  unfold Py.strip. destruct (lstrip_head s) as [->|(a & s' & -> & Ha)]; [done|].
  by rewrite (lstrip_rstrip_head a s' Ha), rstrip_idempotent.
Qed.

Lemma elements_to_dict_lookup (keep : Element -> bool) (elems : list Element)
      (key value : string) :
  elements_to_dict keep elems !! key = Some value ->
  exists elem t, elem ∈ elems /\ keep elem = true /\ tag elem = key
                 /\ text elem = Some t /\ value = Py.strip t.
Proof.
  unfold elements_to_dict. intros Hlookup.
  apply pairs_to_dict_lookup in Hlookup as ((_ & _ & Hka & Hva) & Hin & _).
  apply elem_of_collect_pairs in Hin as (elem & t & Hin & Hkeep & Htext & Heq).
  apply format_pair_inj in Heq as [-> ->]; [|done|done].
  by exists elem, t.
Qed.

(** X12: where the entries of the job dictionary come from. When the document
    parses, the job form returns a dictionary and leaves the sink as it is;
    every key of the dictionary is the tag of a child of the root that has
    text, it is never the tag of the tasks container, and its value is the
    stripped text of such a child. *)
Theorem config_xml_to_dict_job_entries
        (contents : string) (result : Result) (root : Element) :
  fromstring contents = Some root ->
  exists dictionary : gmap string string,
    config_xml_to_dict contents result true = (OutDict dictionary, result)
    /\ forall key value, dictionary !! key = Some value ->
         key <> CONFIG_XML_TASKS_TAG
         /\ exists elem t, elem ∈ children root /\ tag elem = key
                           /\ text elem = Some t /\ value = Py.strip t.
Proof.
  intros Hroot. exists (elements_to_dict not_tasks (children root)). split.
  - unfold config_xml_to_dict, config_xml_to_dict_try. by rewrite Hroot.
  - intros key value Hlookup.
    apply elements_to_dict_lookup in Hlookup as (elem & t & Hin & Hkeep & Htag & Htext & Hv).
    split; [|by exists elem, t].
    intros ->. unfold not_tasks in Hkeep. rewrite <- Htag, String.eqb_refl in Hkeep. done.
Qed.

(** X13: values are trimmed. In every dictionary that [config_xml_to_dict]
    returns, in the job form and in the tasks form, no value has leading or
    trailing white space: stripping a value gives the value. *)
Theorem config_xml_to_dict_values_stripped
        (contents : string) (result : Result) (parse_job : bool) :
  match (config_xml_to_dict contents result parse_job).1 with
  | OutDict dictionary => map_Forall (fun _ value => Py.strip value = value) dictionary
  | OutList output_list =>
      Forall (map_Forall (fun _ value => Py.strip value = value)) output_list
  end.
Proof.
  assert (Helems : forall keep elems,
             map_Forall (fun (_ : string) value => Py.strip value = value)
                        (elements_to_dict keep elems)).
  { intros keep elems key value Hlookup.
    apply elements_to_dict_lookup in Hlookup as (elem & t & _ & _ & _ & _ & ->).
    apply strip_idempotent. }
  unfold config_xml_to_dict, config_xml_to_dict_try.
  destruct (fromstring contents) as [root|]; [|apply map_Forall_empty].
  destruct parse_job.
  - apply (Helems not_tasks).
  - destruct (find root CONFIG_XML_TASKS_TAG) as [tasks|]; [|apply map_Forall_empty].
    cbn [fst]. rewrite output_list_fmap. cbn [app].
    apply Forall_fmap, Forall_forall. intros task _. apply Helems.
Qed.

End ConfigCodec.

(** ** The codec with the separators [|] and [=] *)

(** C6: duplicate keys. With the separators [|] and [=], the string
    [a=1|a=2] parses to the dictionary in which [a] has the value [2], and the
    sink that is passed comes back unchanged. For any assignment separator
    and any list of tokens: when a key is assigned by two valid tokens and by
    no accepted token after the second, the key has the value of the second,
    and the sink is the one that the list without the two tokens gives, so
    neither of them is reported. *)
Theorem pairs_to_dict_last_wins :
  (forall result : Result,
      config_string_to_dict "|" "=" (Some "a=1|a=2") (Some result)
      = ({["a" := "2"]}, Some result))
  /\ (forall (assign : ascii) (before between after : list string)
             (key value1 value2 : string) (result : option Result),
        entry_ok assign key value1 ->
        entry_ok assign key value2 ->
        Forall (fun pair => well_formed assign pair = true -> pair_key assign pair <> key)
               after ->
        let pairs := (before ++ format_pair assign key value1
                        :: between ++ format_pair assign key value2 :: after)%list in
        (pairs_to_dict assign pairs result).1 !! key = Some value2
        /\ (pairs_to_dict assign pairs result).2
           = (pairs_to_dict assign (before ++ between ++ after) result).2).
Proof.
  split.
  - intros result. vm_compute. reflexivity.
  - intros assign before between after key value1 value2 result Hok1 Hok2 Hafter pairs.
    subst pairs. rewrite !pairs_to_dict_spec. cbn [fst snd]. split.
    + rewrite omap_app. cbn [omap list_omap]. rewrite omap_app. cbn [omap list_omap].
      rewrite !parse_pair_format_pair by done.
      rewrite app_comm_cons, app_assoc.
      apply assign_all_lookup_last.
      intros Hin. apply list_elem_of_fmap in Hin as ([k v] & Hk & Hin).
      cbn in Hk. subst k.
      apply list_elem_of_omap in Hin as (pair & Hpair & Hparse).
      rewrite Forall_forall in Hafter. specialize (Hafter pair Hpair).
      unfold parse_pair in Hparse.
      destruct (well_formed assign pair); [|done].
      injection Hparse as Hkey _. by apply Hafter.
    + rewrite !filter_app, !filter_cons, !filter_app, !filter_cons.
      rewrite !malformed_format_pair by done.
      by rewrite !decide_False by done.
Qed.

(** C5 as stated fails: for absent text the result is [None], not the empty
    string. *)
Lemma config_txt_to_string_None_not_empty :
  config_txt_to_string "|" None <> Some EmptyString.
Proof. discriminate. Qed.

(** C8 as stated fails: a valid token may contain the pair separator. The
    one-token list [a|b=c] has distinct keys and parses to the entry
    [a|b -> c]; its encoding [a|b=c] splits into [a] and [b=c], and the second
    parse gives the entry [b -> c]. *)
Lemma pairs_to_dict_reparse_separator_in_key :
  NoDup (pair_key "=" <$> filter (fun pair => well_formed "=" pair = true) ["a|b=c"])
  /\ (pairs_to_dict "=" ["a|b=c"] None).1 = {["a|b" := "c"]}
  /\ (pairs_to_dict "="
        (Py.split "|" (config_dict_to_string "|" "=" (pairs_to_dict "=" ["a|b=c"] None).1))
        None).1 = {["b" := "c"]}
  /\ (pairs_to_dict "="
        (Py.split "|" (config_dict_to_string "|" "=" (pairs_to_dict "=" ["a|b=c"] None).1))
        None).1 <> (pairs_to_dict "=" ["a|b=c"] None).1.
Proof.
  split; [|split; [|split]].
  - vm_compute. apply NoDup_singleton.
  - vm_compute. reflexivity.
  - vm_compute. reflexivity.
  - intros Heq. apply (f_equal (fun m : gmap string string => m !! "b")) in Heq.
    vm_compute in Heq. discriminate.
Qed.

(** ** The properties at concrete inputs *)

Lemma config_string_to_dict_of_dict_to_string_witness :
  config_string_to_dict "|" "="
    (Some (config_dict_to_string "|" "=" (<["language" := "en"]> {["format" := "smil"]})))
    None
  = (<["language" := "en"]> {["format" := "smil"]}, None).
Proof.
  apply config_string_to_dict_of_dict_to_string; [discriminate|].
  apply map_Forall_insert_2; [|apply map_Forall_singleton];
    repeat split; discriminate || reflexivity.
Defined.

Lemma config_xml_to_dict_parse_failure_witness :
  config_xml_to_dict "=" "tasks" "task" (fun _ => None) "<job><language>en"
    {| passed := true; warnings := []; errors := [] |} false
  = (OutDict ∅,
     {| passed := false; warnings := [];
        errors := ["An error occurred while parsing XML file"] |})
  /\ (config_xml_to_dict "=" "tasks" "task" (fun _ => None) "<job><language>en"
        {| passed := true; warnings := []; errors := [] |} false).1 <> OutList [].
Proof.
  apply (config_xml_to_dict_parse_failure "=" "tasks" "task" (fun _ => None)
           "<job><language>en" {| passed := true; warnings := []; errors := [] |} false).
  reflexivity.
Defined.

Lemma pairs_to_dict_one_malformed_witness :
  pairs_to_dict "=" ["a=b"; "noequals"]
    (Some {| passed := true; warnings := []; errors := [] |})
  = ({["a" := "b"]},
     Some {| passed := true;
             warnings := ["Invalid key=value string: 'noequals'"];
             errors := [] |})
  /\ pairs_to_dict "=" ["a=b"; "noequals"] None = ({["a" := "b"]}, None).
Proof.
  apply (pairs_to_dict_one_malformed "=" ["a=b"; "noequals"] "a=b" "noequals"
           {| passed := true; warnings := []; errors := [] |});
    reflexivity.
Defined.

Lemma config_xml_to_dict_tasks_in_order_witness :
  exists output_list : list (gmap string string),
    config_xml_to_dict "=" "tasks" "task" (fun _ => Some sample_job) "<job>"
      {| passed := true; warnings := []; errors := [] |} false
    = (OutList output_list, {| passed := true; warnings := []; errors := [] |})
    /\ output_list
       = (fun task => elements_to_dict "=" (fun _ => true) (children task))
           <$> filter (fun elem => is_task "task" elem = true) (children sample_tasks)
    /\ length output_list
       = length (filter (fun elem => is_task "task" elem = true) (children sample_tasks))
    /\ forall (i : nat) (task : Element),
         filter (fun elem => is_task "task" elem = true) (children sample_tasks) !! i
         = Some task ->
         output_list !! i = Some (elements_to_dict "=" (fun _ => true) (children task)).
Proof.
  apply (config_xml_to_dict_tasks_in_order "=" "tasks" "task" (fun _ => Some sample_job)
           "<job>" {| passed := true; warnings := []; errors := [] |}
           sample_job sample_tasks);
    reflexivity.
Defined.

Lemma pairs_to_dict_reparse_witness :
  pairs_to_dict "="
    (Py.split "|"
       (config_dict_to_string "|" "=" (pairs_to_dict "=" ["a=b"; "noequals"; "c=d"] None).1))
    None
  = ((pairs_to_dict "=" ["a=b"; "noequals"; "c=d"] None).1, None).
Proof.
  apply (pairs_to_dict_reparse "|" "=" ["a=b"; "noequals"; "c=d"] None None).
  - discriminate.
  - vm_compute. apply NoDup_cons_2; [|apply NoDup_singleton].
    rewrite list_elem_of_singleton. discriminate.
  - repeat constructor; intros _; reflexivity.
Defined.

Lemma config_xml_to_dict_job_blank_text_witness :
  config_xml_to_dict "=" "tasks" "task" (fun _ => Some sample_job) "<job>"
    {| passed := true; warnings := []; errors := [] |} true
  = (OutDict
       (elements_to_dict "=" (not_tasks "tasks")
          ([mkElement "language" (Some "en") []] ++ [sample_tasks])),
     {| passed := true; warnings := []; errors := [] |}).
Proof.
  apply (config_xml_to_dict_job_blank_text "=" "tasks" "task" (fun _ => Some sample_job)
           "<job>" {| passed := true; warnings := []; errors := [] |}
           sample_job (mkElement "description" (Some "  ") [])
           [mkElement "language" (Some "en") []] [sample_tasks] "  ");
    reflexivity.
Defined.

Lemma pairs_to_dict_last_wins_witness :
  (pairs_to_dict "=" ["x=0"; "a=1"; "bad"; "a=2"; "y=3"] None).1 !! "a" = Some "2"
  /\ (pairs_to_dict "=" ["x=0"; "a=1"; "bad"; "a=2"; "y=3"] None).2
     = (pairs_to_dict "=" ["x=0"; "bad"; "y=3"] None).2.
Proof.
  apply (proj2 pairs_to_dict_last_wins "="%char ["x=0"] ["bad"] ["y=3"] "a" "1" "2" None).
  - repeat split; discriminate || reflexivity.
  - repeat split; discriminate || reflexivity.
  - repeat constructor. intros _. vm_compute. discriminate.
Defined.

(** ** Properties of the time formatters *)

(** The binary64 value that the literal [3612.345] denotes is the quotient
    [3612345 / 1000] rounded to nearest, and it lies below [3612.345]. *)
Lemma float_3612_345 :
  (3612.345 = Num.float_of_int 3612345 / Num.float_of_int 1000)%float
  /\ Prim2SF 3612.345 = S754_finite false 7943630662076989 (-41)
  /\ (7943630662076989 * 1000 < 3612345 * 2 ^ 41)%Z.
Proof. repeat split; vm_compute; reflexivity. Qed.

Lemma float_12_345678 :
  (12.345678 = Num.float_of_int 12345678 / Num.float_of_int 1000000)%float
  /\ Prim2SF 12.345678 = S754_finite false 6949998855054516 (-49).
Proof. repeat split; vm_compute; reflexivity. Qed.

Lemma float_83_456789 :
  (83.456789 = Num.float_of_int 83456789 / Num.float_of_int 1000000)%float
  /\ Prim2SF 83.456789 = S754_finite false 5872749435030283 (-46).
Proof. repeat split; vm_compute; reflexivity. Qed.

(** The steps of [time_to_hhmmssmmm] on [3612.345]: one hour, no minute,
    twelve seconds, and a remainder whose thousandfold is below 345. *)
Lemma time_to_hhmmssmmm_3612_345_steps :
  let tmp := 3612.345%float in
  let hours := Num.floor (tmp / Num.float_of_int 3600) in
  let tmp1 := (tmp - hours * Num.float_of_int 3600)%float in
  let minutes := Num.floor (tmp1 / Num.float_of_int 60) in
  let tmp2 := (tmp1 - minutes * Num.float_of_int 60)%float in
  let seconds := Num.floor tmp2 in
  let tmp3 := (tmp2 - seconds)%float in
  hours = 1%float /\ minutes = 0%float /\ seconds = 12%float
  /\ ((tmp3 * Num.float_of_int 1000) <? 345)%float = true
  /\ Num.floor (tmp3 * Num.float_of_int 1000) = 344%float.
Proof. repeat split; vm_compute; reflexivity. Qed.

(** C4: the four examples, as the code computes them. Three give the stated
    string; [time_to_hhmmssmmm(3612.345)] gives [01:00:12.344], not
    [01:00:12.345]. *)
Theorem time_formatters_examples :
  time_to_ssmmm (PyFloat 12.345678) = "12.346"
  /\ time_to_hhmmssmmm (PyFloat 3612.345) "." = Some "01:00:12.344"
  /\ time_to_srt (PyFloat 83.456789) = Some "00:01:23,456"
  /\ time_to_hhmmssmmm (PyInt 12) "." = Some "00:00:12.000".
Proof. repeat split; vm_compute; reflexivity. Qed.

(** ** The built-ins on small inputs *)

Example split_examples :
  Py.split "=" "a=b" = ["a"; "b"]
  /\ Py.split "=" "noequals" = ["noequals"]
  /\ Py.split "=" "a=b=" = ["a"; "b"; EmptyString]
  /\ Py.split "=" "=b" = [EmptyString; "b"]
  /\ Py.split "|" EmptyString = [EmptyString]
  /\ Py.split "|" "a=1||b=2" = ["a=1"; EmptyString; "b=2"].
Proof. repeat split. Qed.

Example join_examples :
  Py.join "|" [] = EmptyString
  /\ Py.join "|" ["a=1"] = "a=1"
  /\ Py.join "|" ["a=1"; "b=2"; "c=3"] = "a=1|b=2|c=3".
Proof. repeat split. Qed.

Example strip_examples :
  Py.strip "  en " = "en"
  /\ Py.strip "a b" = "a b"
  /\ Py.strip (String "009" (String "010" " ")) = EmptyString
  /\ Py.strip EmptyString = EmptyString.
Proof. repeat split. Qed.

Example splitlines_examples :
  Py.splitlines EmptyString = []
  /\ Py.splitlines (String "a" (String "010" (String "010" "b"))) = ["a"; EmptyString; "b"]
  /\ Py.splitlines (String "a" (String "013" (String "010" "b"))) = ["a"; "b"]
  /\ Py.splitlines (String "a" (String "010" EmptyString)) = ["a"].
Proof. repeat split. Qed.

Example config_txt_to_string_example :
  config_txt_to_string "|"
    (Some (String "a" (String "=" (String "1" (String "010" (String "010" "b=2"))))))
  = Some "a=1|b=2".
Proof. reflexivity. Qed.

Example format_examples :
  Num.format_d 2 0 = "00" /\ Num.format_d 2 7 = "07" /\ Num.format_d 2 123 = "123"
  /\ Num.format_d 3 45 = "045" /\ Num.format_d 2 (-1) = "-1"
  /\ Num.format_f3 0.0005 = "0.001" /\ Num.format_f3 2.5 = "2.500"
  /\ Num.format_f3 12.345432 = "12.345" /\ Num.format_f3 (Num.float_of_int 12) = "12.000".
Proof. repeat split; vm_compute; reflexivity. Qed.

(** ** Properties of [safe_float] and [safe_int] *)

Lemma int_of_float_None (x : float) :
  Num.int_of_float x = None
  <-> Prim2SF x = S754_nan \/ exists s, Prim2SF x = S754_infinity s.
Proof.
  unfold Num.int_of_float. destruct (Prim2SF x) as [s|s| |s m e]; split; try done.
  - intros [H|[s' H]]; discriminate.
  - intros _. right. by exists s.
  - intros _. by left.
  - intros [H|[s' H]]; discriminate.
Qed.

(** X14: [safe_int] is not safe for infinities and NaN. The call lets an
    exception escape exactly when the value it converts, the parsed text or
    else the default, is a float that is infinite or not a number; so a text
    that [float] reads as an infinity makes it raise whatever the default is,
    while a text that does not parse never does when the default is an [int]
    or is absent. *)
Theorem safe_int_raises (float_of_string : string -> option float)
        (text : option string) (default : option number) :
  (safe_int float_of_string text default = Raises
   <-> exists x, safe_float float_of_string text default = Some (PyFloat x)
                 /\ (Prim2SF x = S754_nan \/ exists s, Prim2SF x = S754_infinity s))
  /\ (forall s, float_of_string s = Some infinity ->
        safe_int float_of_string (Some s) default = Raises)
  /\ (forall s n, float_of_string s = None ->
        safe_int float_of_string (Some s) (Some (PyInt n)) = Returns (Some n)
        /\ safe_int float_of_string (Some s) None = Returns None
        /\ safe_int float_of_string None (Some (PyInt n)) = Returns (Some n)).
Proof.
  split; [|split].
  - unfold safe_int.
    destruct (safe_float float_of_string text default) as [[n|x]|]; cbn.
    + split; [done|]. by intros (x & [=] & _).
    + destruct (Num.int_of_float x) as [n|] eqn:E.
      * split; [done|]. intros (y & [= <-] & Hy).
        apply int_of_float_None in Hy. congruence.
      * split; [|done]. intros _. exists x. split; [done|]. by apply int_of_float_None.
    + split; [done|]. by intros (x & [=] & _).
  - intros s Hs. unfold safe_int, safe_float. rewrite Hs. reflexivity.
  - intros s n Hs. unfold safe_int, safe_float. rewrite Hs. done.
Qed.

(** X15: on a text that [float] reads as a finite value, [safe_int] returns
    that value truncated towards zero, whatever the default is: for the value
    [(-1)^s * m * 2^e], the result has the sign of the value and an absolute
    value [a] with [a <= m * 2^e < a + 1]. *)
Theorem safe_int_truncates (float_of_string : string -> option float)
        (text : string) (default : option number)
        (x : float) (s : bool) (m : positive) (e : Z) :
  float_of_string text = Some x ->
  Prim2SF x = S754_finite s m e ->
  exists n : Z,
    safe_int float_of_string (Some text) default = Returns (Some n)
    /\ (if s then n <= 0 else 0 <= n)%Z
    /\ ((0 <= e)%Z -> Z.abs n = (Z.pos m * 2 ^ e)%Z)
    /\ ((e < 0)%Z ->
        (Z.abs n * 2 ^ (- e) <= Z.pos m < (Z.abs n + 1) * 2 ^ (- e))%Z).
Proof.
  intros Htext Hx. unfold safe_int, safe_float, int_of_number, Num.int_of_float.
  rewrite Htext, Hx. eexists. split; [reflexivity|].
  destruct (0 <=? e)%Z eqn:He.
  - apply Z.leb_le in He.
    assert (Hpow : (0 < 2 ^ e)%Z) by (apply Z.pow_pos_nonneg; lia).
    destruct s; cbn [Num.signed]; repeat split; try lia.
  - apply Z.leb_gt in He.
    assert (Hpow : (0 < 2 ^ (- e))%Z) by (apply Z.pow_pos_nonneg; lia).
    assert (Hq : (0 <= Z.pos m / 2 ^ (- e))%Z) by (apply Z.div_pos; lia).
    pose proof (Z.mul_div_le (Z.pos m) (2 ^ (- e)) Hpow) as Hle.
    pose proof (Z.mul_succ_div_gt (Z.pos m) (2 ^ (- e)) Hpow) as Hgt.
    destruct s; cbn [Num.signed].
    + change (Z.neg m) with (- Z.pos m)%Z.
      rewrite Z.quot_opp_l by lia.
      rewrite Z.quot_div_nonneg by lia.
      repeat split; try lia.
    + rewrite Z.quot_div_nonneg by lia.
      repeat split; try lia.
Qed.

(** ** Properties of [file_name_without_extension] *)

Lemma append_cons (x : ascii) (a b : string) : String x a ++ b = String x (a ++ b).
Proof. reflexivity. Qed.

Lemma length_append (a b : string) :
  String.length (a ++ b) = (String.length a + String.length b)%nat.
Proof.
  induction a as [|x a IH]; [done|].
  rewrite append_cons. cbn [String.length]. by rewrite IH.
Qed.

Lemma append_assoc (a b c : string) : (a ++ b) ++ c = a ++ (b ++ c).
Proof.
  induction a as [|x a IH]; [done|]. by rewrite !append_cons, IH.
Qed.

Lemma append_empty_r (s : string) : s ++ EmptyString = s.
Proof. induction s as [|x s IH]; [done|]. by rewrite append_cons, IH. Qed.

Lemma substring_all (s : string) : substring 0 (String.length s) s = s.
Proof. induction s as [|x s IH]; [done|]. cbn [String.length substring]. by rewrite IH. Qed.

Lemma substring_prefix (a b : string) : substring 0 (String.length a) (a ++ b) = a.
Proof.
  induction a as [|x a IH]; [by destruct b|].
  rewrite append_cons. cbn [String.length substring]. by rewrite IH.
Qed.

Lemma substring_suffix (a b : string) :
  substring (String.length a) (String.length b) (a ++ b) = b.
Proof.
  induction a as [|x a IH]; [apply substring_all|].
  rewrite append_cons. cbn [String.length substring]. exact IH.
Qed.

Lemma slice_from_app (a b : string) :
  Path.slice_from (Z.of_nat (String.length a)) (a ++ b) = b.
Proof.
  unfold Path.slice_from, Path.slice. rewrite !Nat2Z.id, length_append.
  replace (String.length a + String.length b - String.length a)%nat
    with (String.length b) by lia.
  apply substring_suffix.
Qed.

Lemma slice_to_app (a b : string) :
  Path.slice_to (Z.of_nat (String.length a)) (a ++ b) = a.
Proof.
  unfold Path.slice_to, Path.slice. rewrite Nat2Z.id. cbn [Z.to_nat].
  rewrite Nat.sub_0_r. apply substring_prefix.
Qed.

Lemma rfind_bounds (c : ascii) (s : string) : (-1 <= Path.rfind c s)%Z.
Proof.
  induction s as [|a s IH]; cbn [Path.rfind]; [lia|].
  destruct (0 <=? Path.rfind c s)%Z eqn:E; [apply Z.leb_le in E; lia|].
  destruct (Ascii.eqb a c); lia.
Qed.

Lemma rfind_absent (c : ascii) (s : string) :
  Py.contains c s = false -> Path.rfind c s = (-1)%Z.
Proof.
  induction s as [|a s IH]; cbn; [done|].
  destruct (Ascii.eqb a c); [done|]. intros H. by rewrite (IH H).
Qed.

Lemma rfind_last (c : ascii) (a b : string) :
  Py.contains c b = false ->
  Path.rfind c (a ++ String c b) = Z.of_nat (String.length a).
Proof.
  intros Hb. induction a as [|x a IH].
  - change (EmptyString ++ String c b) with (String c b). cbn [Path.rfind String.length].
    by rewrite (rfind_absent c b Hb), Ascii.eqb_refl.
  - change (String x a ++ String c b) with (String x (a ++ String c b)).
    change (Path.rfind c (String x (a ++ String c b)))
      with (let r := Path.rfind c (a ++ String c b) in
            if (0 <=? r)%Z then (r + 1)%Z else if Ascii.eqb x c then 0%Z else (-1)%Z).
    rewrite IH. cbn [String.length].
    destruct (0 <=? Z.of_nat (String.length a))%Z eqn:E; [lia|].
    apply Z.leb_gt in E. lia.
Qed.

(** A string either lacks a character or splits at its last occurrence. *)
Lemma last_occurrence (c : ascii) (s : string) :
  Py.contains c s = false
  \/ exists a b, s = a ++ String c b /\ Py.contains c b = false.
Proof.
  induction s as [|x s IH]; [by left|].
  destruct IH as [Hs|(a & b & -> & Hb)].
  - cbn. destruct (Ascii.eqb x c) eqn:E; [|by left].
    apply Ascii.eqb_eq in E. subst x. right. by exists EmptyString, s.
  - right. by exists (String x a), b.
Qed.

Lemma basename_plain (p : string) : Py.contains "/" p = false -> Path.basename p = p.
Proof.
  intros H. unfold Path.basename. rewrite (rfind_absent _ _ H).
  apply (slice_from_app EmptyString p).
Qed.

Lemma basename_app (a b : string) :
  Py.contains "/" b = false -> Path.basename (a ++ String "/" b) = b.
Proof.
  intros H. unfold Path.basename. rewrite (rfind_last _ a b H).
  replace (Z.of_nat (String.length a) + 1)%Z
    with (Z.of_nat (String.length (a ++ String "/" EmptyString)))
    by (rewrite length_append; cbn; lia).
  replace (a ++ String "/" b) with ((a ++ String "/" EmptyString) ++ b)
    by (by rewrite append_assoc).
  apply slice_from_app.
Qed.

Lemma basename_no_slash (p : string) : Py.contains "/" (Path.basename p) = false.
Proof.
  destruct (last_occurrence "/" p) as [H|(a & b & -> & H)].
  - by rewrite basename_plain.
  - by rewrite basename_app.
Qed.

Lemma splitext_no_dot (name : string) :
  Py.contains "." name = false -> Path.splitext name = (name, EmptyString).
Proof.
  intros H. unfold Path.splitext. rewrite (rfind_absent "." name H).
  pose proof (rfind_bounds "/" name) as Hb.
  destruct (Path.rfind "/" name <? -1)%Z eqn:E; [apply Z.ltb_lt in E; lia|done].
Qed.

Lemma splitext_last_dot (a b : string) :
  Py.contains "/" (a ++ String "." b) = false ->
  Py.contains "." b = false ->
  Path.splitext (a ++ String "." b)
  = if Path.has_non_dot a then (a, String "." b) else (a ++ String "." b, EmptyString).
Proof.
  intros Hslash Hdot. unfold Path.splitext.
  rewrite (rfind_absent "/" _ Hslash), (rfind_last "." a b Hdot).
  replace (-1 <? Z.of_nat (String.length a))%Z with true by (symmetry; apply Z.ltb_lt; lia).
  change (-1 + 1)%Z with 0%Z. fold (Path.slice_to (Z.of_nat (String.length a)) (a ++ String "." b)).
  rewrite slice_to_app, slice_from_app. cbn [andb]. done.
Qed.

Lemma has_non_dot_contains (c : ascii) (s : string) :
  c <> "."%char -> Path.has_non_dot s = false -> Py.contains c s = false.
Proof.
  intros Hc. induction s as [|a s IH]; cbn; [done|].
  destruct (Ascii.eqb a ".") eqn:E; [|done].
  apply Ascii.eqb_eq in E. subst a. intros H.
  destruct (Ascii.eqb "." c) eqn:E'; [apply Ascii.eqb_eq in E'; congruence|auto].
Qed.

Lemma has_non_dot_app_false (a b : string) :
  Path.has_non_dot (a ++ b) = false -> Path.has_non_dot a = false.
Proof.
  induction a as [|c a IH]; [done|]. rewrite append_cons. cbn [Path.has_non_dot].
  destruct (Ascii.eqb c "."); [exact IH|done].
Qed.

Lemma all_dots_last (d : string) :
  Path.has_non_dot d = false -> d <> EmptyString ->
  exists d', d = d' ++ String "." EmptyString.
Proof.
  induction d as [|c d IH]; [done|]. cbn.
  destruct (Ascii.eqb c ".") eqn:E; [|done]. apply Ascii.eqb_eq in E. subst c.
  intros Hd _. destruct d as [|c' d]; [by exists EmptyString|].
  destruct (IH Hd) as [d' Hd']; [done|]. exists (String "." d'). by rewrite Hd'.
Qed.

(** X16: the name that [file_name_without_extension] returns has no slash in
    it, and it is the base name of the path without an extension: the base
    name is the result followed by nothing, or by a dot and a dot-free rest,
    and in that case the result has a character that is not a dot. *)
Theorem file_name_without_extension_shape (path : string) :
  exists name ext : string,
    file_name_without_extension (Some path) = Some name
    /\ Py.contains "/" name = false
    /\ Path.basename path = name ++ ext
    /\ (ext = EmptyString
        \/ exists rest, ext = String "." rest /\ Py.contains "." rest = false
                        /\ Path.has_non_dot name = true).
Proof.
  unfold file_name_without_extension.
  pose proof (basename_no_slash path) as Hslash.
  destruct (last_occurrence "." (Path.basename path)) as [Hdot|(a & b & Heq & Hb)].
  - exists (Path.basename path), EmptyString.
    rewrite (splitext_no_dot _ Hdot). cbn [fst].
    repeat split; [done| |by left]. by rewrite append_empty_r.
  - rewrite Heq in Hslash |- *. rewrite (splitext_last_dot a b Hslash Hb).
    destruct (Path.has_non_dot a) eqn:Ha; cbn [fst].
    + exists a, (String "." b). repeat split; try done.
      * rewrite contains_app in Hslash. by apply orb_false_elim in Hslash as [H _].
      * right. by exists b.
    + exists (a ++ String "." b), EmptyString. repeat split; [done| |by left].
      by rewrite append_empty_r.
Qed.

(** X17: the usual case. For a file name made of a stem that has a character
    other than a dot, a dot and an extension without a dot, the result is the
    stem, with or without a directory in front of the name; only the last
    extension is removed. *)
Theorem file_name_without_extension_stem (dir stem ext : string) :
  Py.contains "/" stem = false ->
  Path.has_non_dot stem = true ->
  Py.contains "/" ext = false ->
  Py.contains "." ext = false ->
  file_name_without_extension (Some (dir ++ String "/" (stem ++ String "." ext))) = Some stem
  /\ file_name_without_extension (Some (stem ++ String "." ext)) = Some stem.
Proof.
  intros Hstem Hnon Hext Hdot.
  assert (Hname : Py.contains "/" (stem ++ String "." ext) = false).
  { rewrite contains_app, Hstem. cbn. exact Hext. }
  unfold file_name_without_extension.
  rewrite (basename_app dir _ Hname), (basename_plain _ Hname).
  rewrite (splitext_last_dot stem ext Hname Hdot), Hnon. done.
Qed.

(** X18: the edges. No path gives no name; a path that ends with a slash
    gives the empty name; and a name without a slash whose dots all come
    first, such as a name without a dot or a hidden file, is returned whole,
    with or without a directory in front of it. *)
Theorem file_name_without_extension_edges :
  file_name_without_extension None = None
  /\ (forall dir, file_name_without_extension (Some (dir ++ String "/" EmptyString))
                  = Some EmptyString)
  /\ (forall dir dots rest,
        Path.has_non_dot dots = false ->
        Py.contains "." rest = false ->
        Py.contains "/" rest = false ->
        file_name_without_extension (Some (dots ++ rest)) = Some (dots ++ rest)
        /\ file_name_without_extension (Some (dir ++ String "/" (dots ++ rest)))
           = Some (dots ++ rest)).
Proof.
  split; [reflexivity|split].
  - intros dir. unfold file_name_without_extension.
    by rewrite (basename_app dir EmptyString).
  - intros dir dots rest Hdots Hrest Hslash.
    assert (Hname : Py.contains "/" (dots ++ rest) = false).
    { rewrite contains_app, Hslash, orb_false_r.
      by apply has_non_dot_contains. }
    assert (Hsplit : Path.splitext (dots ++ rest) = (dots ++ rest, EmptyString)).
    { destruct dots as [|c dots'] eqn:Ed; [by apply splitext_no_dot|].
      destruct (all_dots_last (String c dots') Hdots) as [d' Hd']; [done|].
      rewrite Hd' in Hname, Hdots |- *. rewrite append_assoc in Hname |- *.
      change (String "." EmptyString ++ rest) with (String "." rest) in Hname |- *.
      rewrite (splitext_last_dot d' rest Hname Hrest).
      by rewrite (has_non_dot_app_false d' _ Hdots). }
    unfold file_name_without_extension.
    by rewrite (basename_app dir _ Hname), (basename_plain _ Hname), Hsplit.
Qed.

(** ** The time formatters over ranges of inputs *)

Lemma time_to_hhmmssmmm_fields (time_value : number) (decimal_separator : string) :
  time_to_hhmmssmmm time_value decimal_separator
  = match clock_fields time_value with
    | Some (h, m, s, ms) =>
        Some (Num.format_d 2 h ++ ":" ++ Num.format_d 2 m ++ ":" ++ Num.format_d 2 s
              ++ decimal_separator ++ Num.format_d 3 ms)
    | None => None
    end.
Proof.
  unfold time_to_hhmmssmmm, clock_fields.
  repeat match goal with
         | |- context [match Num.int_of_float ?x with _ => _ end] =>
             destruct (Num.int_of_float x)
         end; reflexivity.
Qed.

Lemma forallb_range (check : nat -> bool) (bound : Z) :
  forallb check (seq 0 (Z.to_nat bound)) = true ->
  forall n : Z, (0 <= n < bound)%Z -> check (Z.to_nat n) = true.
Proof.
  intros Hall n Hn. rewrite forallb_forall in Hall. apply Hall.
  apply in_seq. lia.
Qed.

Lemma whole_seconds_checked : forallb whole_second_ok (seq 0 (Z.to_nat 4000)) = true.
Proof. vm_compute. reflexivity. Qed.

Lemma three_decimals_checked : forallb three_decimals_ok (seq 0 (Z.to_nat 2000)) = true.
Proof. vm_compute. reflexivity. Qed.

Lemma truncated_checked : forallb truncated_ok (seq 0 (Z.to_nat 2000)) = true.
Proof. vm_compute. reflexivity. Qed.

(** X19: whole seconds. For every whole number of seconds below 4000,
    given as an [int] or as a [float], and every decimal separator,
    [time_to_hhmmssmmm] prints the hours, minutes and seconds of that number
    and [000] milliseconds, and [time_to_srt] prints the same with a comma. *)
Theorem time_to_hhmmssmmm_whole_seconds (n : Z) (decimal_separator : string) :
  (0 <= n < 4000)%Z ->
  let clock sep :=
    Some (Num.format_d 2 (n / 3600) ++ ":" ++ Num.format_d 2 (n mod 3600 / 60) ++ ":"
          ++ Num.format_d 2 (n mod 60) ++ sep ++ "000") in
  time_to_hhmmssmmm (PyInt n) decimal_separator = clock decimal_separator
  /\ time_to_hhmmssmmm (PyFloat (Num.float_of_int n)) decimal_separator
     = clock decimal_separator
  /\ time_to_srt (PyInt n) = clock ","
  /\ time_to_srt (PyFloat (Num.float_of_int n)) = clock ",".
Proof.
  intros Hn clock. subst clock. cbv beta.
  pose proof (forallb_range _ _ whole_seconds_checked n Hn) as Hcheck.
  unfold whole_second_ok, time_to_srt in *. rewrite Z2Nat.id in Hcheck by lia.
  rewrite !time_to_hhmmssmmm_fields.
  destruct (clock_fields (PyInt n)) as [[[[h m] s] ms]|]; [|done].
  destruct (clock_fields (PyFloat (Num.float_of_int n))) as [[[[h' m'] s'] ms']|]; [|done].
  repeat (apply andb_prop in Hcheck as [Hcheck ?]).
  repeat match goal with H : (_ =? _)%Z = true |- _ => apply Z.eqb_eq in H end.
  subst. done.
Qed.

(** X20: three decimals. For every time value below two seconds with at most
    three decimals (the float nearest to [k / 1000]), [time_to_ssmmm] prints
    exactly these decimals. *)
Theorem time_to_ssmmm_three_decimals (k : Z) :
  (0 <= k < 2000)%Z ->
  time_to_ssmmm (milliseconds_value k)
  = Num.digits (k / 1000) ++ "." ++ Num.zfill 3 (Num.digits (k mod 1000)).
Proof.
  intros Hk. pose proof (forallb_range _ _ three_decimals_checked k Hk) as Hcheck.
  unfold three_decimals_ok in Hcheck. rewrite Z2Nat.id in Hcheck by lia.
  by apply String.eqb_eq in Hcheck.
Qed.

(** X21: the millisecond field is truncated, not rounded. For every time
    value below two seconds with at most three decimals, [time_to_hhmmssmmm]
    prints the right seconds and a millisecond field that is the third
    decimal or one less, never more; below one second it is exact, and at
    [1.001] it is already one less: the result is [00:00:01.000]. *)
Theorem time_to_hhmmssmmm_truncates (k : Z) (decimal_separator : string) :
  (0 <= k < 2000)%Z ->
  (exists ms : Z,
      time_to_hhmmssmmm (milliseconds_value k) decimal_separator
      = Some ("00:00:" ++ Num.format_d 2 (k / 1000) ++ decimal_separator
              ++ Num.format_d 3 ms)
      /\ (ms = k mod 1000 \/ ms = k mod 1000 - 1)%Z
      /\ ((k < 1000)%Z -> ms = k))
  /\ time_to_hhmmssmmm (milliseconds_value 1001) "." = Some "00:00:01.000".
Proof.
  intros Hk. split; [|vm_compute; reflexivity].
  pose proof (forallb_range _ _ truncated_checked k Hk) as Hcheck.
  unfold truncated_ok in Hcheck. rewrite Z2Nat.id in Hcheck by lia.
  rewrite time_to_hhmmssmmm_fields.
  destruct (clock_fields (milliseconds_value k)) as [[[[h m] s] ms]|]; [|done].
  apply andb_prop in Hcheck as [Hcheck Hexact].
  apply andb_prop in Hcheck as [Hcheck Hms].
  apply andb_prop in Hcheck as [Hcheck Hs].
  apply andb_prop in Hcheck as [Hh Hm].
  apply Z.eqb_eq in Hh, Hm, Hs. subst h m s.
  exists ms. split; [reflexivity|]. split.
  - apply orb_prop in Hms as [Hms|Hms]; apply Z.eqb_eq in Hms; lia.
  - intros Hlt. apply Z.ltb_lt in Hlt. rewrite Hlt in Hexact.
    by apply Z.eqb_eq in Hexact.
Qed.

(** ** The further properties at concrete inputs *)

Lemma config_string_to_dict_reencode_witness :
  config_string_to_dict "|" "="
    (Some (config_dict_to_string "|" "="
             (config_string_to_dict "|" "=" (Some "a=1|bad||a=2|b=x=y|c=3") None).1))
    None
  = ((config_string_to_dict "|" "=" (Some "a=1|bad||a=2|b=x=y|c=3") None).1, None).
Proof.
  apply (config_string_to_dict_reencode "|" "=" (Some "a=1|bad||a=2|b=x=y|c=3") None None).
  discriminate.
Defined.

Lemma config_dict_to_string_injective_witness :
  (config_dict_to_string "|" "=" {["a" := "1"]} = config_dict_to_string "|" "=" {["a" := "1"]}
   -> ({["a" := "1"]} : gmap string string) = {["a" := "1"]})
  /\ (config_dict_to_string "|" "=" {["a" := "1"]} = EmptyString
      <-> ({["a" := "1"]} : gmap string string) = ∅).
Proof.
  apply (config_dict_to_string_injective "|" "=" {["a" := "1"]} {["a" := "1"]}).
  - discriminate.
  - apply map_Forall_singleton. repeat split; discriminate || reflexivity.
  - apply map_Forall_singleton. repeat split; discriminate || reflexivity.
Defined.

Lemma config_txt_to_string_no_line_break_witness :
  Py.contains "010" "a=1|b=2" = false /\ Py.contains "013" "a=1|b=2" = false.
Proof.
  apply (config_txt_to_string_no_line_break "|"
           (String "a" (String "=" (String "1" (String "013" (String "010"
              (String "010" "b=2"))))))
           "a=1|b=2").
  - discriminate.
  - discriminate.
  - reflexivity.
Defined.

Lemma config_xml_to_dict_no_tasks_container_witness :
  config_xml_to_dict "=" "tasks" "task"
    (fun _ => Some (mkElement "job" None [mkElement "language" (Some "en") []])) "<job>"
    {| passed := true; warnings := []; errors := [] |} false
  = (OutDict ∅,
     {| passed := false; warnings := [];
        errors := ["An error occurred while parsing XML file"] |}).
Proof.
  apply (config_xml_to_dict_no_tasks_container "=" "tasks" "task"
           (fun _ => Some (mkElement "job" None [mkElement "language" (Some "en") []]))
           "<job>" {| passed := true; warnings := []; errors := [] |}
           (mkElement "job" None [mkElement "language" (Some "en") []])).
  - reflexivity.
  - repeat constructor. discriminate.
Defined.

Lemma config_xml_to_dict_job_entries_witness :
  exists dictionary : gmap string string,
    config_xml_to_dict "=" "tasks" "task" (fun _ => Some sample_job) "<job>"
      {| passed := true; warnings := []; errors := [] |} true
    = (OutDict dictionary, {| passed := true; warnings := []; errors := [] |})
    /\ forall key value, dictionary !! key = Some value ->
         key <> "tasks"
         /\ exists elem t, elem ∈ children sample_job /\ tag elem = key
                           /\ text elem = Some t /\ value = Py.strip t.
Proof.
  apply (config_xml_to_dict_job_entries "=" "tasks" "task" (fun _ => Some sample_job)
           "<job>" {| passed := true; warnings := []; errors := [] |} sample_job).
  reflexivity.
Defined.

Lemma safe_int_truncates_witness :
  exists n : Z,
    safe_int (fun _ => Some (-2.75)%float) (Some "-2.75") None = Returns (Some n)
    /\ (n <= 0)%Z
    /\ ((0 <= -51)%Z -> Z.abs n = (6192449487634432 * 2 ^ (-51))%Z)
    /\ ((-51 < 0)%Z ->
        (Z.abs n * 2 ^ (- -51) <= 6192449487634432 < (Z.abs n + 1) * 2 ^ (- -51))%Z).
Proof.
  apply (safe_int_truncates (fun _ => Some (-2.75)%float) "-2.75" None (-2.75)%float
           true 6192449487634432 (-51)).
  - reflexivity.
  - vm_compute. reflexivity.
Defined.

Lemma file_name_without_extension_stem_witness :
  file_name_without_extension (Some "/foo/bar.baz") = Some "bar"
  /\ file_name_without_extension (Some "bar.baz") = Some "bar".
Proof.
  apply (file_name_without_extension_stem "/foo" "bar" "baz"); reflexivity.
Defined.

Lemma time_to_hhmmssmmm_whole_seconds_witness :
  time_to_hhmmssmmm (PyInt 83) "." = Some "00:01:23.000"
  /\ time_to_hhmmssmmm (PyFloat (Num.float_of_int 83)) "." = Some "00:01:23.000"
  /\ time_to_srt (PyInt 83) = Some "00:01:23,000"
  /\ time_to_srt (PyFloat (Num.float_of_int 83)) = Some "00:01:23,000".
Proof.
  apply (time_to_hhmmssmmm_whole_seconds 83 "."). lia.
Defined.

Lemma time_to_ssmmm_three_decimals_witness :
  time_to_ssmmm (milliseconds_value 1345) = "1.345".
Proof.
  apply (time_to_ssmmm_three_decimals 1345). lia.
Defined.

Lemma time_to_hhmmssmmm_truncates_witness :
  (exists ms : Z,
      time_to_hhmmssmmm (milliseconds_value 1345) "."
      = Some ("00:00:" ++ Num.format_d 2 (1345 / 1000) ++ "." ++ Num.format_d 3 ms)
      /\ (ms = 1345 mod 1000 \/ ms = 1345 mod 1000 - 1)%Z
      /\ ((1345 < 1000)%Z -> ms = 1345%Z))
  /\ time_to_hhmmssmmm (milliseconds_value 1001) "." = Some "00:00:01.000".
Proof.
  apply (time_to_hhmmssmmm_truncates 1345 "."). lia.
Defined.

(** ** Properties of [norm_join] *)

Lemma step_plain (k : nat) (acc : list string) (comp : string) :
  plain_component comp -> Path.normpath_step k acc comp = (acc ++ [comp])%list.
Proof.
  intros ((Hne & Hdot & _) & Hdd). unfold Path.normpath_step.
  apply String.eqb_neq in Hne, Hdot, Hdd. by rewrite Hne, Hdot, Hdd.
Qed.

Lemma foldl_step_plain (k : nat) (rest acc : list string) :
  Forall plain_component rest -> foldl (Path.normpath_step k) acc rest = (acc ++ rest)%list.
Proof.
  intros Hrest. revert acc. induction Hrest as [|comp rest Hc Hrest IH]; intros acc.
  - by rewrite app_nil_r.
  - cbn [foldl]. rewrite (step_plain k acc comp Hc), IH, <- app_assoc. done.
Qed.

Lemma last_replicate_dots (m : nat) : last (replicate (S m) "..") = Some "..".
Proof. rewrite replicate_S_end. apply last_snoc. Qed.

Lemma step_dots (m : nat) :
  Path.normpath_step 0 (replicate m "..") ".." = replicate (S m) "..".
Proof.
  unfold Path.normpath_step. cbn [String.eqb Ascii.eqb Bool.eqb orb negb andb Nat.eqb].
  destruct m as [|m]; [done|].
  rewrite last_replicate_dots. cbn [String.eqb Ascii.eqb Bool.eqb orb negb andb].
  by rewrite <- replicate_S_end.
Qed.

Lemma foldl_step_dots (n m : nat) :
  foldl (Path.normpath_step 0) (replicate m "..") (replicate n "..")
  = replicate (m + n) "..".
Proof.
  revert m. induction n as [|n IH]; intros m.
  - by rewrite Nat.add_0_r.
  - cbn [replicate foldl]. rewrite step_dots, IH. f_equal. lia.
Qed.

(** The loop of [normpath] leaves normalized components as they are. *)
Lemma normal_fixed (k : nat) (comps : list string) :
  normal_components k comps -> foldl (Path.normpath_step k) [] comps = comps.
Proof.
  intros (n & rest & -> & Hrest & Hk). rewrite foldl_app.
  destruct n as [|n].
  - cbn [replicate foldl]. by rewrite foldl_step_plain.
  - destruct k as [|k]; [|by specialize (Hk ltac:(done))].
    replace (foldl (Path.normpath_step 0) [] (replicate (S n) ".."))
      with (replicate (S n) "..") by (symmetry; apply (foldl_step_dots (S n) 0)).
    by rewrite foldl_step_plain.
Qed.

Lemma normal_nil (k : nat) : normal_components k [].
Proof. exists 0%nat, []. by repeat split. Qed.

Lemma removelast_replicate (n : nat) (x : string) :
  removelast (replicate n x) = replicate (pred n) x.
Proof.
  destruct n as [|n]; [done|]. rewrite replicate_S_end. apply removelast_last.
Qed.

(** The loop of [normpath] keeps its list of components normalized. *)
Lemma step_normal (k : nat) (acc : list string) (comp : string) :
  normal_components k acc -> Py.contains "/" comp = false ->
  normal_components k (Path.normpath_step k acc comp).
Proof.
  intros (n & rest & -> & Hrest & Hk) Hslash. unfold Path.normpath_step.
  destruct (String.eqb comp EmptyString) eqn:Hne; [by exists n, rest|].
  destruct (String.eqb comp ".") eqn:Hdot; [by exists n, rest|].
  apply String.eqb_neq in Hne, Hdot. cbn [orb].
  destruct (String.eqb comp "..") eqn:Hdd.
  - apply String.eqb_eq in Hdd. subst comp. cbn [negb orb].
    destruct rest as [|r rest _] using rev_ind.
    + rewrite app_nil_r.
      destruct n as [|n].
      * cbn [replicate last]. rewrite orb_false_r.
        destruct k as [|k]; cbn.
        -- exists 1%nat, []. by repeat split.
        -- apply normal_nil.
      * rewrite last_replicate_dots. cbn [String.eqb Ascii.eqb Bool.eqb]. rewrite orb_true_r.
        rewrite <- replicate_S_end. exists (S (S n)), [].
        rewrite app_nil_r. repeat split; [done|]. intros Hk'. by specialize (Hk Hk').
    + rewrite app_assoc, last_snoc.
      apply Forall_app in Hrest as [Hrest Hr]. inversion Hr as [|? ? [_ Hr'] _]; subst.
      apply String.eqb_neq in Hr'. rewrite Hr', orb_false_r.
      assert (Hpop : normal_components k (removelast ((replicate n ".." ++ rest) ++ [r]))).
      { rewrite removelast_last. by exists n, rest. }
      destruct ((k =? 0)%nat && _) eqn:Htest; [|exact Hpop].
      apply andb_prop in Htest as [_ Hnil].
      destruct (replicate n ".." ++ rest)%list; discriminate.
  - cbn [negb orb]. exists n, (rest ++ [comp])%list. rewrite app_assoc.
    repeat split; [|done].
    apply Forall_app. split; [done|]. constructor; [|done].
    apply String.eqb_neq in Hdd. by repeat split.
Qed.

Lemma foldl_step_normal (k : nat) (comps acc : list string) :
  normal_components k acc ->
  Forall (fun comp => Py.contains "/" comp = false) comps ->
  normal_components k (foldl (Path.normpath_step k) acc comps).
Proof.
  intros Hacc Hcomps. revert acc Hacc.
  induction Hcomps as [|comp comps Hc Hcomps IH]; intros acc Hacc; [done|].
  cbn [foldl]. apply IH. by apply step_normal.
Qed.

Lemma normal_components_Forall (k : nat) (comps : list string) :
  normal_components k comps -> Forall component comps.
Proof.
  intros (n & rest & -> & Hrest & _). apply Forall_app. split.
  - apply Forall_replicate. by repeat split.
  - eapply Forall_impl; [exact Hrest|]. by intros c [Hc _].
Qed.

Lemma join_head (c : string) (cs : list string) :
  component c ->
  exists x t, Py.join "/" (c :: cs) = String x t /\ Ascii.eqb "/" x = false.
Proof.
  intros (Hne & _ & Hslash). destruct c as [|x c']; [done|].
  cbn in Hslash. destruct (Ascii.eqb x "/") eqn:E; [done|].
  rewrite Ascii.eqb_sym in E.
  destruct cs as [|c2 cs]; [by exists x, c'|].
  rewrite join_cons, append_cons. by eexists _, _.
Qed.

Lemma split_join_components (comps : list string) :
  Forall component comps -> comps <> [] ->
  Py.split "/" (Py.join "/" comps) = comps.
Proof.
  intros Hall Hne. apply split_join; [done|].
  eapply Forall_impl; [exact Hall|]. by intros c (_ & _ & H).
Qed.

Lemma normpath_nonempty (p : string) :
  String.eqb p EmptyString = false ->
  Path.normpath p
  = normalized_path (Path.initial_slashes p)
      (foldl (Path.normpath_step (Path.initial_slashes p)) [] (Py.split "/" p)).
Proof. intros H. unfold Path.normpath. by rewrite H. Qed.

Lemma split_slash_cons (s : string) :
  Py.split "/" (String "/" s) = EmptyString :: Py.split "/" s.
Proof. reflexivity. Qed.

Lemma foldl_step_skip_empty (k : nat) (acc comps : list string) :
  foldl (Path.normpath_step k) acc (EmptyString :: comps)
  = foldl (Path.normpath_step k) acc comps.
Proof. reflexivity. Qed.

Lemma initial_slashes_none (x : ascii) (t : string) :
  Ascii.eqb "/" x = false -> Path.initial_slashes (String x t) = 0.
Proof. intros Hx. unfold Path.initial_slashes. cbn [Path.startswith]. by rewrite Hx. Qed.

Lemma initial_slashes_one (x : ascii) (t : string) :
  Ascii.eqb "/" x = false -> Path.initial_slashes (String "/" (String x t)) = 1.
Proof.
  intros Hx. unfold Path.initial_slashes. cbn [Path.startswith].
  rewrite Hx. reflexivity.
Qed.

Lemma initial_slashes_two (x : ascii) (t : string) :
  Ascii.eqb "/" x = false ->
  Path.initial_slashes (String "/" (String "/" (String x t))) = 2.
Proof.
  intros Hx. unfold Path.initial_slashes. cbn [Path.startswith].
  rewrite Hx. reflexivity.
Qed.

Lemma normalized_path_nonempty (k : nat) (comps : list string) (x : ascii) (t : string) :
  Py.join "/" comps = String x t ->
  normalized_path k comps = Path.slashes k ++ String x t.
Proof.
  intros Hjoin. unfold normalized_path. rewrite Hjoin. by destruct k.
Qed.

(** A normalized path is a fixed point of [normpath]. *)
Lemma normpath_normalized (k : nat) (comps : list string) :
  k <= 2 -> normal_components k comps ->
  Path.normpath (normalized_path k comps) = normalized_path k comps.
Proof.
  intros Hk Hnormal. destruct comps as [|c cs].
  { destruct k as [|[|[|k]]]; [reflexivity|reflexivity|reflexivity|lia]. }
  pose proof (normal_components_Forall k _ Hnormal) as Hall.
  pose proof (split_join_components _ Hall ltac:(done)) as Hsplit.
  pose proof (normal_fixed k _ Hnormal) as Hfixed.
  inversion Hall as [|? ? Hc _]; subst.
  destruct (join_head c cs Hc) as (x & t & Hjoin & Hx).
  rewrite (normalized_path_nonempty k _ x t Hjoin). rewrite Hjoin in Hsplit.
  destruct k as [|[|[|k]]]; [| | |lia].
  - change (Path.slashes 0 ++ String x t) with (String x t).
    rewrite normpath_nonempty by done.
    rewrite (initial_slashes_none x t Hx), Hsplit, Hfixed.
    apply (normalized_path_nonempty 0 _ x t Hjoin).
  - change (Path.slashes 1 ++ String x t) with (String "/" (String x t)).
    rewrite normpath_nonempty by done.
    rewrite (initial_slashes_one x t Hx), split_slash_cons, Hsplit.
    rewrite foldl_step_skip_empty, Hfixed.
    apply (normalized_path_nonempty 1 _ x t Hjoin).
  - change (Path.slashes 2 ++ String x t) with (String "/" (String "/" (String x t))).
    rewrite normpath_nonempty by done.
    rewrite (initial_slashes_two x t Hx), !split_slash_cons, Hsplit.
    rewrite !foldl_step_skip_empty, Hfixed.
    apply (normalized_path_nonempty 2 _ x t Hjoin).
Qed.

Lemma initial_slashes_bound (p : string) : Path.initial_slashes p <= 2.
Proof.
  unfold Path.initial_slashes.
  destruct (Path.startswith "/" p); [|lia].
  destruct (Path.startswith "//" p && negb (Path.startswith "///" p)); lia.
Qed.

(** What [normpath] returns is a normalized path. *)
Lemma normpath_normal_form (p : string) :
  exists k comps, k <= 2 /\ normal_components k comps
                  /\ Path.normpath p = normalized_path k comps.
Proof.
  destruct (String.eqb p EmptyString) eqn:Hp.
  - apply String.eqb_eq in Hp. subst p. exists 0%nat, []. split; [lia|].
    split; [apply normal_nil|reflexivity].
  - exists (Path.initial_slashes p),
           (foldl (Path.normpath_step (Path.initial_slashes p)) [] (Py.split "/" p)).
    split; [apply initial_slashes_bound|]. split; [|by apply normpath_nonempty].
    apply foldl_step_normal; [apply normal_nil|apply split_pieces_plain].
Qed.

Lemma normpath_idempotent (p : string) :
  Path.normpath (Path.normpath p) = Path.normpath p.
Proof.
  destruct (normpath_normal_form p) as (k & comps & Hk & Hnormal & ->).
  by apply normpath_normalized.
Qed.

Lemma normalized_path_not_empty (k : nat) (comps : list string) :
  normalized_path k comps <> EmptyString.
Proof.
  unfold normalized_path.
  destruct (String.eqb (Path.slashes k ++ Py.join "/" comps) EmptyString) eqn:E; [done|].
  by apply String.eqb_neq in E.
Qed.

Lemma join_app (c : ascii) (ps qs : list string) :
  ps <> [] -> qs <> [] ->
  Py.join c (ps ++ qs) = Py.join c ps ++ String c (Py.join c qs).
Proof.
  intros Hps Hqs. induction ps as [|p ps IH]; [done|].
  destruct ps as [|p2 ps].
  - destruct qs as [|q qs]; [done|]. reflexivity.
  - change ((p :: p2 :: ps) ++ qs)%list with (p :: p2 :: (ps ++ qs))%list.
    rewrite !join_cons. change (p2 :: (ps ++ qs))%list with ((p2 :: ps) ++ qs)%list.
    rewrite IH by done. rewrite append_assoc. by rewrite append_cons.
Qed.

Lemma endswith_slash_app (x y : string) :
  y <> EmptyString -> Path.endswith_slash (x ++ y) = Path.endswith_slash y.
Proof.
  intros Hy. induction x as [|a x IH]; [done|].
  rewrite append_cons. cbn [Path.endswith_slash].
  destruct (x ++ y) as [|b s] eqn:E; [|exact IH].
  destruct x; [by cbn in E|discriminate].
Qed.

Lemma endswith_slash_absent (s : string) :
  Py.contains "/" s = false -> Path.endswith_slash s = false.
Proof.
  induction s as [|a s IH]; [done|]. cbn [Py.contains Path.endswith_slash].
  destruct (Ascii.eqb a "/") eqn:E; [done|]. intros H.
  destruct s; [done|by apply IH].
Qed.

Lemma endswith_slash_join (comps : list string) :
  Forall component comps -> comps <> [] ->
  Path.endswith_slash (Py.join "/" comps) = false.
Proof.
  induction 1 as [|c comps Hc Hall IH]; [done|]. intros _.
  destruct comps as [|c2 comps].
  - apply endswith_slash_absent. by destruct Hc as (_ & _ & H).
  - rewrite join_cons, endswith_slash_app by done.
    inversion Hall as [|? ? Hc2 _]; subst.
    destruct (join_head c2 comps Hc2) as (x & t & Hjoin & _).
    cbn [Path.endswith_slash]. rewrite Hjoin. rewrite <- Hjoin. by apply IH.
Qed.

Lemma plain_components_normal (k : nat) (comps : list string) :
  Forall plain_component comps -> normal_components k comps.
Proof. intros H. by exists 0%nat, comps. Qed.

(** X22: the form of the result of [norm_join]. It is never empty: it is [.],
    or at most two slashes followed by components joined by single slashes,
    where no component is empty, is [.] or has a slash in it, [..]
    components come first, and there is none after initial slashes. *)
Theorem norm_join_normal_form (prefix suffix : string) :
  norm_join prefix suffix <> EmptyString
  /\ exists (k : nat) (comps : list string),
       k <= 2 /\ normal_components k comps
       /\ norm_join prefix suffix
          = if String.eqb (Path.slashes k ++ Py.join "/" comps) EmptyString
            then "." else Path.slashes k ++ Py.join "/" comps.
Proof.
  unfold norm_join.
  destruct (normpath_normal_form (Path.join prefix suffix)) as (k & comps & Hk & Hn & ->).
  split; [apply normalized_path_not_empty|]. by exists k, comps.
Qed.

(** X23: the result of [norm_join] is stable. Normalizing it again, or
    joining it to the empty prefix, gives it back. *)
Theorem norm_join_stable (prefix suffix : string) :
  Path.normpath (norm_join prefix suffix) = norm_join prefix suffix
  /\ norm_join EmptyString (norm_join prefix suffix) = norm_join prefix suffix.
Proof.
  split; [apply normpath_idempotent|].
  unfold norm_join at 1.
  assert (Hjoin : forall s, Path.join EmptyString s = s).
  { intros s. unfold Path.join. by destruct (Path.startswith "/" s). }
  rewrite Hjoin. apply normpath_idempotent.
Qed.

(** X24: how the two paths combine. An absolute suffix replaces the prefix.
    For a prefix and a suffix made of plain components (not empty, not [.]
    or [..], without a slash), the result is the components of the prefix
    followed by those of the suffix, joined by single slashes, whether or not
    the prefix ends with a slash, and with the initial slash of an absolute
    prefix. *)
Theorem norm_join_combines :
  (forall prefix suffix,
      Path.startswith "/" suffix = true ->
      norm_join prefix suffix = Path.normpath suffix)
  /\ (forall ps qs : list string,
        Forall plain_component ps -> Forall plain_component qs ->
        ps <> [] -> qs <> [] ->
        norm_join (Py.join "/" ps) (Py.join "/" qs) = Py.join "/" (ps ++ qs)
        /\ norm_join (Py.join "/" ps ++ "/") (Py.join "/" qs) = Py.join "/" (ps ++ qs)
        /\ norm_join (String "/" (Py.join "/" ps)) (Py.join "/" qs)
           = String "/" (Py.join "/" (ps ++ qs))).
Proof.
  split.
  - intros prefix suffix H. unfold norm_join, Path.join. by rewrite H.
  - intros ps qs Hps Hqs Hps_ne Hqs_ne.
    assert (Hall : Forall plain_component (ps ++ qs)) by (by apply Forall_app).
    assert (Hcps : Forall component ps)
      by (eapply Forall_impl; [exact Hps|]; by intros c [Hc _]).
    assert (Hcqs : Forall component qs)
      by (eapply Forall_impl; [exact Hqs|]; by intros c [Hc _]).
    assert (Hne : (ps ++ qs)%list <> []) by (by destruct ps).
    destruct ps as [|p ps']; [done|]. destruct qs as [|q qs']; [done|].
    inversion Hcps as [|? ? Hp _]; subst. inversion Hcqs as [|? ? Hq _]; subst.
    destruct (join_head p ps' Hp) as (x & t & HP & Hx).
    destruct (join_head q qs' Hq) as (y & u & HQ & Hy).
    pose proof (endswith_slash_join _ Hcps Hps_ne) as Hend.
    pose proof (join_app "/" _ _ Hps_ne Hqs_ne) as Happ.
    assert (Hrel : Path.normpath (Py.join "/" ((p :: ps') ++ q :: qs'))
                   = Py.join "/" ((p :: ps') ++ q :: qs')).
    { pose proof (normpath_normalized 0 _ ltac:(lia) (plain_components_normal 0 _ Hall)) as H.
      destruct (join_head p (ps' ++ q :: qs') Hp) as (x' & t' & HJ & _).
      change (p :: ps' ++ q :: qs')%list with ((p :: ps') ++ q :: qs')%list in HJ.
      by rewrite (normalized_path_nonempty 0 _ x' t' HJ), <- HJ in H. }
    assert (Habs : Path.normpath (String "/" (Py.join "/" ((p :: ps') ++ q :: qs')))
                   = String "/" (Py.join "/" ((p :: ps') ++ q :: qs'))).
    { pose proof (normpath_normalized 1 _ ltac:(lia) (plain_components_normal 1 _ Hall)) as H.
      destruct (join_head p (ps' ++ q :: qs') Hp) as (x' & t' & HJ & _).
      change (p :: ps' ++ q :: qs')%list with ((p :: ps') ++ q :: qs')%list in HJ.
      by rewrite (normalized_path_nonempty 1 _ x' t' HJ), <- HJ in H. }
    assert (Hstart : Path.startswith "/" (Py.join "/" (q :: qs')) = false).
    { rewrite HQ. cbn [Path.startswith]. by rewrite Hy. }
    unfold norm_join, Path.join. rewrite Hstart. split; [|split].
    + rewrite Hend, orb_false_r.
      replace (String.eqb (Py.join "/" (p :: ps')) EmptyString) with false
        by (by rewrite HP).
      by rewrite <- Happ.
    + rewrite endswith_slash_app by done. cbn [Path.endswith_slash Ascii.eqb Bool.eqb].
      rewrite orb_true_r, append_assoc.
      change (String "/" EmptyString ++ Py.join "/" (q :: qs'))
        with (String "/" (Py.join "/" (q :: qs'))).
      by rewrite <- Happ.
    + cbn [String.eqb orb]. cbn [Path.endswith_slash]. rewrite HP, <- HP, Hend.
      rewrite append_cons, <- Happ. exact Habs.
Qed.
